(** * A relay between a client and a remote code-execution engine

    Shallow embedding of [Back-End/app.py]: the language table, the
    [decode_base64_output] helper and the two Flask handlers [submit_code]
    and [get_status], together with the parts of the Python runtime they
    call (UTF-8 codec, [base64], [requests], JSON values).

    Python values are modelled as they are at run time:
    - a [str] is a sequence of Unicode code points ([pystr]);
    - a [bytes] object is a sequence of octets ([bytes]);
    - a value produced by a JSON parser is a [value] tree;
    - an exception is a value of [exn]; a computation that may raise
      returns an [outcome];
    - a handler runs in the monad [M], which threads the list of outbound
      HTTP calls and of log records.

    The codecs follow CPython: [Utf8.decode] is its UTF-8 decoder under
    the [strict] and [ignore] error handlers, [Base64.a2b_loop] is the loop
    of [binascii.a2b_base64] in its default mode, which skips characters
    outside the alphabet and raises on input that ends inside a group.

    CPython's limit on the digits of an [int], 4300 by default, is part
    of the model: [str] raises beyond it, and what the JSON parsers
    deliver, in a request or in an answer of the engine, is within it.

    Two things stay open, as variables of the sections below: the text
    [repr] gives for floats, lists and dicts, and the remote engine, which
    maps every outbound call to an answer or to a transport failure. *)

From Stdlib Require Import ZArith List Lia Bool String Ascii DecimalString
  Permutation.
Import ListNotations.
Local Open Scope Z_scope.

(** ** Python strings and bytes *)

(** A [str]: the sequence of its code points, each in [0, 0x10FFFF]. *)
Definition pystr := list Z.

(** A [bytes] object: the sequence of its octets, each in [0, 255]. *)
Definition bytes := list Z.

(** An ASCII literal of the source, as a [str]. *)
Definition py (s : string) : pystr :=
  map (fun a => Z.of_nat (nat_of_ascii a)) (list_ascii_of_string s).

Definition pystr_eqb (a b : pystr) : bool :=
  if list_eq_dec Z.eq_dec a b then true else false.

(** Code points a [str] may hold. *)
Definition is_codepoint (c : Z) : Prop := 0 <= c <= 0x10FFFF.

(** Surrogates are code points, but no UTF-8 sequence stands for them. *)
Definition is_surrogate (c : Z) : bool := (0xD800 <=? c) && (c <=? 0xDFFF).

(** Text that has a UTF-8 encoding. *)
Definition utf8_text (s : pystr) : Prop :=
  Forall (fun c => is_codepoint c /\ is_surrogate c = false) s.

(** ** The UTF-8 codec *)
Module Utf8.

(** [str.encode('utf-8')] on one code point; [None] on a surrogate, where
    Python raises [UnicodeEncodeError]. *)
Definition encode_char (ch : Z) : option bytes :=
  if ch <? 0x80 then Some [ch]
  else if ch <? 0x800 then
    Some [Z.lor 0xC0 (Z.shiftr ch 6); Z.lor 0x80 (Z.land ch 0x3F)]
  else if ch <? 0x10000 then
    if is_surrogate ch then None
    else Some [Z.lor 0xE0 (Z.shiftr ch 12);
               Z.lor 0x80 (Z.land (Z.shiftr ch 6) 0x3F);
               Z.lor 0x80 (Z.land ch 0x3F)]
  else
    Some [Z.lor 0xF0 (Z.shiftr ch 18);
          Z.lor 0x80 (Z.land (Z.shiftr ch 12) 0x3F);
          Z.lor 0x80 (Z.land (Z.shiftr ch 6) 0x3F);
          Z.lor 0x80 (Z.land ch 0x3F)].

Fixpoint encode (s : pystr) : option bytes :=
  match s with
  | [] => Some []
  | ch :: rest =>
      match encode_char ch, encode rest with
      | Some b, Some bs => Some (b ++ bs)
      | _, _ => None
      end
  end.

Definition is_continuation (b : Z) : bool := (0x80 <=? b) && (b <? 0xC0).

(** The [errors] argument of [bytes.decode]. *)
Inductive error_handler := Strict | Ignore.

(** What the decoder does at an invalid sequence: [strict] raises
    ([None]); [ignore] drops the invalid bytes and resumes at [resume]. *)
Definition on_error (errors : error_handler) (resume : option pystr)
  : option pystr :=
  match errors with
  | Strict => None
  | Ignore => resume
  end.

(** [bytes.decode('utf-8', errors)]: the decoder of CPython.  A byte that
    cannot start a sequence is invalid by itself; a sequence broken at its
    second, third or fourth byte is invalid up to the offending byte,
    where decoding resumes; a sequence cut by the end of the input is
    invalid up to the end. *)
Fixpoint decode (errors : error_handler) (s : bytes) : option pystr :=
  match s with
  | [] => Some []
  | ch :: s1 =>
    if ch <? 0x80 then option_map (cons ch) (decode errors s1)
    else if ch <? 0xE0 then
      if ch <? 0xC2 then on_error errors (decode errors s1)
      else
        match s1 with
        | [] => on_error errors (Some [])
        | ch2 :: s2 =>
          if negb (is_continuation ch2)
          then on_error errors (decode errors s1)
          else option_map
                 (cons (Z.shiftl ch 6 + ch2 - (Z.shiftl 0xC0 6 + 0x80)))
                 (decode errors s2)
        end
    else if ch <? 0xF0 then
      match s1 with
      | [] => on_error errors (Some [])
      | ch2 :: s2 =>
        if negb (is_continuation ch2)
           || (if ch2 <? 0xA0 then ch =? 0xE0 else ch =? 0xED)
        then on_error errors (decode errors s1)
        else
          match s2 with
          | [] => on_error errors (Some [])
          | ch3 :: s3 =>
            if negb (is_continuation ch3)
            then on_error errors (decode errors s2)
            else option_map
                   (cons (Z.shiftl ch 12 + Z.shiftl ch2 6 + ch3
                          - (Z.shiftl 0xE0 12 + Z.shiftl 0x80 6 + 0x80)))
                   (decode errors s3)
          end
      end
    else if ch <? 0xF5 then
      match s1 with
      | [] => on_error errors (Some [])
      | ch2 :: s2 =>
        if negb (is_continuation ch2)
           || (if ch2 <? 0x90 then ch =? 0xF0 else ch =? 0xF4)
        then on_error errors (decode errors s1)
        else
          match s2 with
          | [] => on_error errors (Some [])
          | ch3 :: s3 =>
            if negb (is_continuation ch3)
            then on_error errors (decode errors s2)
            else
              match s3 with
              | [] => on_error errors (Some [])
              | ch4 :: s4 =>
                if negb (is_continuation ch4)
                then on_error errors (decode errors s3)
                else option_map
                       (cons (Z.shiftl ch 18 + Z.shiftl ch2 12
                              + Z.shiftl ch3 6 + ch4
                              - (Z.shiftl 0xF0 18 + Z.shiftl 0x80 12
                                 + Z.shiftl 0x80 6 + 0x80)))
                       (decode errors s4)
              end
          end
      end
    else on_error errors (decode errors s1)
  end.

End Utf8.

(** ** The [base64] module *)
Module Base64.

Definition BASE64_PAD : Z := 61.   (* '=' *)

Definition table_b2a_base64 : list Z :=
  py "ABCDEFGHIJKLMNOPQRSTUVWXYZabcdefghijklmnopqrstuvwxyz0123456789+/".

Definition b2a (sextet : Z) : Z := nth (Z.to_nat sextet) table_b2a_base64 0.

(** The decoding table: the value of an alphabet character, 255 for every
    other octet. *)
Definition table_a2b_base64 (c : Z) : Z :=
  if (65 <=? c) && (c <=? 90) then c - 65
  else if (97 <=? c) && (c <=? 122) then c - 97 + 26
  else if (48 <=? c) && (c <=? 57) then c - 48 + 52
  else if c =? 43 then 62
  else if c =? 47 then 63
  else 255.

(** [base64.b64encode]: three octets give four characters; a last group of
    one or two octets is padded with ['=']. *)
Fixpoint b64encode (s : bytes) : bytes :=
  match s with
  | [] => []
  | [b0] =>
      [b2a (Z.shiftr b0 2);
       b2a (Z.shiftl (Z.land b0 3) 4);
       BASE64_PAD; BASE64_PAD]
  | [b0; b1] =>
      [b2a (Z.shiftr b0 2);
       b2a (Z.lor (Z.shiftl (Z.land b0 3) 4) (Z.shiftr b1 4));
       b2a (Z.shiftl (Z.land b1 0xF) 2);
       BASE64_PAD]
  | b0 :: b1 :: b2 :: rest =>
      b2a (Z.shiftr b0 2)
      :: b2a (Z.lor (Z.shiftl (Z.land b0 3) 4) (Z.shiftr b1 4))
      :: b2a (Z.lor (Z.shiftl (Z.land b1 0xF) 2) (Z.shiftr b2 6))
      :: b2a (Z.land b2 0x3F)
      :: b64encode rest
  end.

(** The loop of [binascii.a2b_base64] in its default, lenient mode.
    [quad_pos] counts the data characters of the current group of four,
    [leftchar] holds the bits not yet written, [pads] the padding
    characters seen since the last data character.  Characters outside the
    alphabet are skipped; padding that completes a group ends the decoding;
    input that ends inside a group is an error ([None], where Python
    raises [binascii.Error]). *)
Fixpoint a2b_loop (ascii : bytes) (quad_pos leftchar pads : Z)
  : option bytes :=
  match ascii with
  | [] => if quad_pos =? 0 then Some [] else None
  | this_ch :: rest =>
    if this_ch =? BASE64_PAD then
      if 2 <=? quad_pos then
        if 4 <=? quad_pos + (pads + 1) then Some []
        else a2b_loop rest quad_pos leftchar (pads + 1)
      else a2b_loop rest quad_pos leftchar pads
    else
      let v := table_a2b_base64 this_ch in
      if 64 <=? v then a2b_loop rest quad_pos leftchar pads
      else if quad_pos =? 0 then a2b_loop rest 1 v 0
      else if quad_pos =? 1 then
        option_map
          (cons (Z.land (Z.lor (Z.shiftl leftchar 2) (Z.shiftr v 4)) 0xFF))
          (a2b_loop rest 2 (Z.land v 0x0F) 0)
      else if quad_pos =? 2 then
        option_map
          (cons (Z.land (Z.lor (Z.shiftl leftchar 4) (Z.shiftr v 2)) 0xFF))
          (a2b_loop rest 3 (Z.land v 0x03) 0)
      else
        option_map
          (cons (Z.land (Z.lor (Z.shiftl leftchar 6) v) 0xFF))
          (a2b_loop rest 0 0 0)
  end.

Definition a2b_base64 (ascii : bytes) : option bytes := a2b_loop ascii 0 0 0.

End Base64.

(** ** Python values *)

(** The values a JSON parser produces: [None], [bool], [int], [float] (its
    IEEE 754 binary64 bit pattern), [str], [list] and [dict] (string keys,
    in insertion order; the first binding of a key is the live one). *)
#[warnings="-register-all"]
Inductive value :=
| PNone
| PBool (b : bool)
| PInt (n : Z)
| PFloat (bits : Z)
| PStr (s : pystr)
| PList (l : list value)
| PDict (d : list (pystr * value)).

(** The integer a binary64 denotes, when it denotes one. *)
Definition float_integer (bits : Z) : option Z :=
  let negative := Z.testbit bits 63 in
  let e := Z.land (Z.shiftr bits 52) 0x7FF in
  let m := Z.land bits (Z.ones 52) in
  let signed (z : Z) := if negative then - z else z in
  if e =? 0x7FF then None
  else if e =? 0 then (if m =? 0 then Some 0 else None)
  else
    let significand := 2 ^ 52 + m in
    if 1075 <=? e then Some (signed (significand * 2 ^ (e - 1075)))
    else if significand mod 2 ^ (1075 - e) =? 0
         then Some (signed (significand / 2 ^ (1075 - e)))
         else None.

(** Truth value of an object, as [if x] and [not x] test it. *)
Definition truthy (v : value) : bool :=
  match v with
  | PNone => false
  | PBool b => b
  | PInt n => negb (n =? 0)
  | PFloat bits => negb (Z.land bits (Z.ones 63) =? 0)
  | PStr s => negb (Nat.eqb (List.length s) 0)
  | PList l => negb (Nat.eqb (List.length l) 0)
  | PDict d => negb (Nat.eqb (List.length d) 0)
  end.

(** [v == k] for an [int] literal [k]: numbers compare by value, across
    [bool], [int] and [float]; no other value equals a number. *)
Definition eq_int (v : value) (k : Z) : bool :=
  match v with
  | PBool b => (if b then 1 else 0) =? k
  | PInt n => n =? k
  | PFloat bits =>
      match float_integer bits with Some z => z =? k | None => false end
  | _ => false
  end.

(** [v in [k1, k2, ...]] for a list of [int] literals. *)
Definition py_in (v : value) (ks : list Z) : bool := existsb (eq_int v) ks.

(** Lists and dicts cannot be dictionary keys. *)
Definition hashable (v : value) : bool :=
  match v with
  | PList _ | PDict _ => false
  | _ => true
  end.

Fixpoint lookup (k : pystr) (d : list (pystr * value)) : option value :=
  match d with
  | [] => None
  | (k', v) :: rest => if pystr_eqb k k' then Some v else lookup k rest
  end.

(** The value bound to [k] in [d], [default] when there is none. *)
Definition find_or (k : pystr) (d : list (pystr * value)) (default : value)
  : value :=
  match lookup k d with
  | Some v => v
  | None => default
  end.

(** ** The limit on the digits of an [int] *)

(** [sys.int_max_str_digits], as CPython sets it since 3.11: an [int] of
    more decimal digits is converted neither to text ([str], [repr], an
    f-string) nor from text (a literal in a JSON body); both raise
    [ValueError]. *)
Definition int_max_str_digits : Z := 4300.

(** [10 ** 4300], the least [int] beyond the limit. *)
Definition int_str_bound : Z := Eval vm_compute in (10 ^ int_max_str_digits).

(** An [int] that has a decimal text. *)
Definition convertible (n : Z) : bool := Z.abs n <? int_str_bound.

(** No [int] of the value, at any depth, is beyond the limit. A JSON
    parser delivers such values only. *)
Fixpoint within_limit (v : value) : bool :=
  match v with
  | PInt n => convertible n
  | PList l => forallb within_limit l
  | PDict d => forallb (fun kv => within_limit (snd kv)) d
  | _ => true
  end.

(** What a JSON parser gave, when it gave something. *)
Definition parsed_body (o : option value) : bool :=
  match o with
  | Some v => within_limit v
  | None => true
  end.

Class Parsed (o : option value) : Prop :=
  parsed : parsed_body o = true.

#[global] Hint Extern 0 (Parsed _) => exact (eq_refl true)
  : typeclass_instances.

(** ** Exceptions *)

(** The answer of a remote server. [text] is the body; [json_body] is the
    body parsed as JSON, when it parses: what [response.json()] returns.
    The parser raises a plain [ValueError] on an [int] literal beyond the
    limit on digits, so the value holds none; an answer with such a body
    is not among these records. *)
Record response := {
  status_code : Z;
  text : pystr;
  json_body : option value;
  json_body_parsed : Parsed json_body
}.

(** What [requests.get] and [requests.post] raise when no answer arrives. *)
Inductive transport_error :=
| ConnectionError
| Timeout
| TooManyRedirects
| InvalidURL
| ChunkedEncodingError.

Inductive exn :=
| HTTPError (r : response)        (* requests.exceptions.HTTPError *)
| Transport (t : transport_error) (* the other requests.exceptions *)
| JSONDecodeError                 (* requests.exceptions.JSONDecodeError *)
| BadRequest                      (* werkzeug.exceptions *)
| UnsupportedMediaType
| AttributeError
| TypeError
| ValueError
| BinasciiError                   (* binascii.Error, a ValueError *)
| UnicodeEncodeError              (* UnicodeError, a ValueError *)
| UnicodeDecodeError.

Definition isinstance_TypeError (e : exn) : bool :=
  match e with TypeError => true | _ => false end.

Definition isinstance_ValueError (e : exn) : bool :=
  match e with
  | ValueError | BinasciiError | UnicodeEncodeError | UnicodeDecodeError
  | JSONDecodeError => true
  | _ => false
  end.

(** A computation that returns or raises. *)
Inductive outcome (A : Type) :=
| Returns (a : A)
| Raises (e : exn).
Arguments Returns {A} a.
Arguments Raises {A} e.

Definition obind {A B} (c : outcome A) (k : A -> outcome B) : outcome B :=
  match c with
  | Returns a => k a
  | Raises e => Raises e
  end.

(** [try: body  except classes: handler] on a computation without effects. *)
Definition otry {A} (body : outcome A) (classes : exn -> bool)
  (handler : outcome A) : outcome A :=
  match body with
  | Returns a => Returns a
  | Raises e => if classes e then handler else Raises e
  end.

(** ** Methods of the built-in types *)

(** [obj.get(key, default)]: only a [dict] has the method; an unhashable key
    raises. Keys are strings, so no other key is ever found. *)
Definition py_get (obj key default : value) : outcome value :=
  match obj with
  | PDict d =>
      match key with
      | PStr k => Returns (find_or k d default)
      | _ => if hashable key then Returns default else Raises TypeError
      end
  | _ => Raises AttributeError
  end.

(** [obj.encode('utf-8')]: only a [str] has the method. *)
Definition py_encode (obj : value) : outcome bytes :=
  match obj with
  | PStr s =>
      match Utf8.encode s with
      | Some b => Returns b
      | None => Raises UnicodeEncodeError
      end
  | _ => Raises AttributeError
  end.

(** [base64.b64decode(data)]: a [str] must be ASCII ([ValueError] if not),
    any other JSON value is not bytes-like ([TypeError]). *)
Definition b64decode (data : value) : outcome bytes :=
  match data with
  | PStr s =>
      if forallb (fun c => (0 <=? c) && (c <? 128)) s then
        match Base64.a2b_base64 s with
        | Some b => Returns b
        | None => Raises BinasciiError
        end
      else Raises ValueError
  | _ => Raises TypeError
  end.

(** ** Effects: outbound HTTP calls and log records *)

Inductive http_method := GET | POST.

Record outbound_call := {
  call_method : http_method;
  call_url : pystr;
  call_json : option value;
  call_headers : list (pystr * pystr)
}.

Inductive log_record :=
| LogInfo (msg : pystr)
| LogError (msg : pystr)
| LogException (msg : pystr) (e : exn).   (* the message ends with str(e) *)

(** What a handler leaves behind, oldest first. *)
Record world := {
  outbound : list outbound_call;
  logged : list log_record
}.

Definition initial : world := {| outbound := []; logged := [] |}.

(** A handler step: it returns or raises, and updates the world. *)
Definition M (A : Type) : Type := world -> outcome A * world.

Definition ret {A} (a : A) : M A := fun w => (Returns a, w).

Definition raise {A} (e : exn) : M A := fun w => (Raises e, w).

Definition bind {A B} (c : M A) (k : A -> M B) : M B :=
  fun w =>
    match c w with
    | (Returns a, w') => k a w'
    | (Raises e, w') => (Raises e, w')
    end.

Definition lift {A} (c : outcome A) : M A := fun w => (c, w).

Declare Scope py_scope.
Delimit Scope py_scope with py.
Notation "x <- c ;; k" := (bind c (fun x => k))
  (at level 61, c at next level, right associativity) : py_scope.
Notation "c ;;; k" := (bind c (fun _ => k))
  (at level 61, right associativity) : py_scope.

(** An [except] clause: [Some handler] when it catches the exception. *)
Definition clause (A : Type) : Type := exn -> option (M A).

Definition except_HTTPError {A} (h : response -> M A) : clause A :=
  fun e => match e with HTTPError r => Some (h r) | _ => None end.

Definition except_Exception {A} (h : exn -> M A) : clause A :=
  fun e => Some (h e).

Fixpoint dispatch {A} (clauses : list (clause A)) (e : exn) : M A :=
  match clauses with
  | [] => raise e
  | c :: rest => match c e with Some h => h | None => dispatch rest e end
  end.

(** [try: body  except ...: ...]: the first clause that catches the
    exception handles it, in the world the body left. *)
Definition try_except {A} (body : M A) (clauses : list (clause A)) : M A :=
  fun w =>
    match body w with
    | (Returns a, w') => (Returns a, w')
    | (Raises e, w') => dispatch clauses e w'
    end.

(** The world after one more outbound call, after one more log record. *)
Definition record_call (c : outbound_call) (w : world) : world :=
  {| outbound := outbound w ++ [c]; logged := logged w |}.

Definition record_log (r : log_record) (w : world) : world :=
  {| outbound := outbound w; logged := logged w ++ [r] |}.

(** [app.logger.info(...)], [app.logger.error(...)] *)
Definition logger (r : log_record) : M unit :=
  fun w => (Returns tt, record_log r w).

(** The status codes of client and server errors, 4xx and 5xx. *)
Definition http_error_status (r : response) : bool :=
  (400 <=? status_code r) && (status_code r <? 600).

(** [response.raise_for_status()] *)
Definition raise_for_status (r : response) : M unit :=
  if http_error_status r then raise (HTTPError r) else ret tt.

(** [response.json()] *)
Definition response_json (r : response) : M value :=
  match json_body r with
  | Some v => ret v
  | None => raise JSONDecodeError
  end.

(** The dict a handler hands to [jsonify], and the status code it returns
    with it. The entries are in the order of the dict; the order of the
    keys in the body that is sent is [jsonify]'s and is not modelled. *)
Definition flask_response : Type := value * Z.

(** What a JSON parser gave, or what was raised in its place. *)
Definition delivered_body (o : outcome value) : bool :=
  match o with
  | Returns v => within_limit v
  | Raises _ => true
  end.

Class Delivered (o : outcome value) : Prop :=
  delivered : delivered_body o = true.

#[global] Hint Extern 0 (Delivered _) => exact (eq_refl true)
  : typeclass_instances.

(** The request a handler reads: what [request.get_json()] gives. A value
    it returns came from the JSON parser, so it holds no [int] beyond the
    limit on digits: on such a literal the parser raises, and [get_json]
    raises [BadRequest]. *)
Record flask_request := {
  get_json : outcome value;
  get_json_delivered : Delivered get_json
}.

(** [b.decode('utf-8', errors)] *)
Definition bytes_decode (errors : Utf8.error_handler) (b : bytes)
  : outcome pystr :=
  match Utf8.decode errors b with
  | Some s => Returns s
  | None => Raises UnicodeDecodeError
  end.

(** ** The application: [Back-End/app.py] *)
Section Relay.

Local Open Scope py_scope.

(** [repr] of a [float], a [list] or a [dict]: the text [str()] gives for
    them. Nothing in the application looks inside that text. *)
Variable py_repr : value -> pystr.

(** The remote engine and the network before it: for each outbound call,
    the answer that arrives or the failure of the transport. *)
Variable remote : outbound_call -> transport_error + response.

(** The text [str(v)] gives, also what an f-string puts for [{v}]. *)
Definition py_str (v : value) : pystr :=
  match v with
  | PNone => py "None"
  | PBool true => py "True"
  | PBool false => py "False"
  | PInt n => py (NilZero.string_of_int (Z.to_int n))
  | PStr s => s
  | PFloat _ | PList _ | PDict _ => py_repr v
  end.

(** [str(v)] as a call: it raises [ValueError] when the text would hold
    an [int] beyond the limit on digits. The limit of the interpreter on
    recursion, which [repr] meets on a list or a dict nested deeper than a
    JSON parser goes, is not modelled. *)
Definition str (v : value) : outcome pystr :=
  if within_limit v then Returns (py_str v) else Raises ValueError.

(** One outbound call: it is recorded, then it returns the answer or
    raises the failure of the transport. *)
Definition send (c : outbound_call) : M response :=
  fun w =>
    let w' := record_call c w in
    match remote c with
    | inl t => (Raises (Transport t), w')
    | inr r => (Returns r, w')
    end.

(** [requests.post(url, json=payload, headers=headers)] *)
Definition requests_post (url : pystr) (payload : value)
  (headers : list (pystr * pystr)) : M response :=
  send {| call_method := POST; call_url := url;
          call_json := Some payload; call_headers := headers |}.

(** [requests.get(url)] *)
Definition requests_get (url : pystr) : M response :=
  send {| call_method := GET; call_url := url;
          call_json := None; call_headers := [] |}.

Definition JUDGE0_URL : pystr := py "https://ce.judge0.com".

(** The entries of the [LANGUAGE_MAP] dict. *)
Definition LANGUAGE_MAP : list (pystr * value) :=
  [ (py "Python 3", PInt 71);
    (py "Node.js (JavaScript)", PInt 63);
    (py "C++", PInt 54);
    (py "C", PInt 50);
    (py "Java", PInt 62);
    (py "C#", PInt 51);
    (py "Go", PInt 60);
    (py "Rust", PInt 73);
    (py "TypeScript", PInt 74);
    (py "Plain Text", PInt 43) ].

(** Decodes base64-encoded data, handling None or errors gracefully. *)
Definition decode_base64_output (data : value) : outcome pystr :=
  match data with
  | PNone => Returns (py "")
  | _ =>
      otry (obind (b64decode data) (bytes_decode Utf8.Ignore))
           (fun e => isinstance_TypeError e || isinstance_ValueError e)
           (str data)
  end.

(** [base64.b64encode(x.encode('utf-8')).decode('utf-8')] *)
Definition b64_of_text (x : value) : outcome pystr :=
  obind (py_encode x)
        (fun b => bytes_decode Utf8.Strict (Base64.b64encode b)).

Definition error_body (msg : pystr) : value :=
  PDict [(py "error", PStr msg)].

Definition error_body_details (msg details : pystr) : value :=
  PDict [(py "error", PStr msg); (py "details", PStr details)].

(** The [url], [payload] and [headers] of the submission. *)
Definition submit_url : pystr :=
  JUDGE0_URL ++ py "/submissions?base64_encoded=true&wait=false".

Definition submit_payload (encoded_code : pystr) (language_id : value)
  (encoded_stdin : pystr) : value :=
  PDict [ (py "source_code", PStr encoded_code);
          (py "language_id", language_id);
          (py "stdin", PStr encoded_stdin);
          (py "cpu_time_limit", PInt 5);
          (py "memory_limit", PInt 256000) ].

Definition submit_headers : list (pystr * pystr) :=
  [(py "content-type", py "application/json")].

(** The [url] of a poll. *)
Definition status_url (token : pystr) : pystr :=
  JUDGE0_URL ++ py "/submissions/" ++ token
  ++ py "?base64_encoded=true&fields=stdout,stderr,compile_output,time,memory,status".

(** Step 1: receives code, sends it to Judge0, and returns the submission
    token. *)
Definition submit_code (request : flask_request) : M flask_response :=
  try_except
    (data <- lift (get_json request) ;;
     if negb (truthy data) then
       ret (error_body (py "Invalid JSON payload"), 400)
     else
       code <- lift (py_get data (PStr (py "code")) (PStr (py ""))) ;;
       language_name <-
         lift (py_get data (PStr (py "language")) (PStr (py "python"))) ;;
       stdin <- lift (py_get data (PStr (py "stdin")) (PStr (py ""))) ;;
       language_id <-
         lift (py_get (PDict LANGUAGE_MAP) language_name PNone) ;;
       if negb (truthy language_id) then
         language_text <- lift (str language_name) ;;
         ret (error_body (py "Unsupported language: " ++ language_text), 400)
       else
         encoded_code <- lift (b64_of_text code) ;;
         encoded_stdin <- lift (b64_of_text stdin) ;;
         let url := submit_url in
         let payload := submit_payload encoded_code language_id encoded_stdin in
         let headers := submit_headers in
         response <- requests_post url payload headers ;;
         raise_for_status response ;;;
         body <- response_json response ;;
         token <- lift (py_get body (PStr (py "token")) PNone) ;;
         token_text <- lift (str token) ;;
         logger (LogInfo (py "Submission successful. Token: " ++ token_text))
         ;;;
         ret (PDict [(py "token", token)], 202))
    [ except_HTTPError (fun r =>
        let error_details := text r in
        logger (LogError (py "Judge0 API Error: " ++ error_details)) ;;;
        ret (error_body_details
               (py "Failed to submit code to compiler service.")
               error_details, 502));
      except_Exception (fun e =>
        logger (LogException (py "Internal Server Error: ") e) ;;;
        ret (error_body (py "An unexpected server error occurred."), 500))
    ].

(** Step 2: receives a token and polls Judge0 for the execution result. *)
Definition get_status (token : pystr) : M flask_response :=
  if negb (truthy (PStr token)) then
    ret (error_body (py "Token is required"), 400)
  else
    try_except
      (let url := status_url token in
       response <- requests_get url ;;
       raise_for_status response ;;;
       result <- response_json response ;;
       status <- lift (py_get result (PStr (py "status")) (PDict [])) ;;
       status_id <- lift (py_get status (PStr (py "id")) PNone) ;;
       if py_in status_id [1; 2] then
         ret (PDict [(py "status",
                      PDict [(py "description", PStr (py "Pending"))])],
              200)
       else
         status' <- lift (py_get result (PStr (py "status")) (PDict [])) ;;
         description <-
           lift (py_get status' (PStr (py "description"))
                   (PStr (py "Unknown Error"))) ;;
         raw_stdout <- lift (py_get result (PStr (py "stdout")) PNone) ;;
         stdout <- lift (decode_base64_output raw_stdout) ;;
         raw_stderr <- lift (py_get result (PStr (py "stderr")) PNone) ;;
         stderr <- lift (decode_base64_output raw_stderr) ;;
         raw_compile_output <-
           lift (py_get result (PStr (py "compile_output")) PNone) ;;
         compile_output <- lift (decode_base64_output raw_compile_output) ;;
         time <- lift (py_get result (PStr (py "time")) PNone) ;;
         memory <- lift (py_get result (PStr (py "memory")) PNone) ;;
         let final_result :=
           PDict [ (py "status", description);
                   (py "stdout", PStr stdout);
                   (py "stderr", PStr stderr);
                   (py "compile_output", PStr compile_output);
                   (py "time", time);
                   (py "memory", memory) ] in
         ret (final_result, 200))
      [ except_HTTPError (fun r =>
          if status_code r =? 404 then
            ret (error_body (py "Invalid or expired token."), 404)
          else
            let error_details := text r in
            logger (LogError (py "Judge0 Polling Error: "
                              ++ error_details)) ;;;
            ret (error_body_details
                   (py "Failed to retrieve results from compiler service.")
                   error_details, 502));
        except_Exception (fun e =>
          logger (LogException (py "Internal Polling Error: ") e) ;;;
          ret (error_body
                 (py "An unexpected server error occurred during polling."),
               500))
      ].

End Relay.

(** ** Vocabulary of the statements *)

Definition is_byte (b : Z) : Prop := 0 <= b < 256.

Definition is_ascii (c : Z) : Prop := 0 <= c < 128.

(** The outbound call of a poll for [token]. *)
Definition status_call (token : pystr) : outbound_call :=
  {| call_method := GET; call_url := status_url token;
     call_json := None; call_headers := [] |}.

(** The outbound call of a submission. *)
Definition submission_call (encoded_code : pystr) (language_id : value)
  (encoded_stdin : pystr) : outbound_call :=
  {| call_method := POST; call_url := submit_url;
     call_json := Some (submit_payload encoded_code language_id encoded_stdin);
     call_headers := submit_headers |}.

(** The request body is a non-empty JSON object; [code], [language] and
    [stdin] are what the handler reads from it, defaults included. *)
Definition reads (request : flask_request) (code language stdin : value)
  : Prop :=
  exists data,
    get_json request = Returns (PDict data) /\ data <> [] /\
    find_or (py "code") data (PStr (py "")) = code /\
    find_or (py "language") data (PStr (py "python")) = language /\
    find_or (py "stdin") data (PStr (py "")) = stdin.

(** A name of the language table. *)
Definition is_language_key (v : value) : Prop :=
  exists name id, v = PStr name /\ In (name, id) LANGUAGE_MAP.

(** The request of the scenario: Python 3, [print(1)], no input. *)
Definition scenario_request : flask_request :=
  {| get_json :=
       Returns (PDict [ (py "code", PStr (py "print(1)"));
                        (py "language", PStr (py "Python 3"));
                        (py "stdin", PStr (py "")) ]) |}.

(** The call the remote engine is to receive for it. *)
Definition scenario_call : outbound_call :=
  {| call_method := POST;
     call_url :=
       py "https://ce.judge0.com/submissions?base64_encoded=true&wait=false";
     call_json :=
       Some (PDict [ (py "source_code", PStr (py "cHJpbnQoMSk="));
                     (py "language_id", PInt 71);
                     (py "stdin", PStr (py ""));
                     (py "cpu_time_limit", PInt 5);
                     (py "memory_limit", PInt 256000) ]);
     call_headers := [(py "content-type", py "application/json")] |}.

(** The three text fields of an execution result. *)
Definition text_fields : list pystr :=
  [py "stdout"; py "stderr"; py "compile_output"].

(** Sample environments: a [repr], and remote engines that answer every
    call alike. *)
Definition plain_repr : value -> pystr := fun _ => py "<object>".

Definition engine_answers (r : response)
  : outbound_call -> transport_error + response := fun _ => inr r.

Definition engine_unreachable
  : outbound_call -> transport_error + response := fun _ => inl ConnectionError.

Definition answer (code : Z) (body : value) {H : Parsed (Some body)}
  : response :=
  {| status_code := code; text := py "(body)"; json_body := Some body |}.

(** Sample answers of the engine and sample requests. *)

(** The engine accepts the submission of the scenario and issues a token. *)
Definition accepted : response :=
  answer 201 (PDict [(py "token", PStr (py "d85cd024"))]).

(** The engine reports a submission that waits in its queue. *)
Definition in_queue : response :=
  answer 200
    (PDict [(py "status",
             PDict [(py "id", PInt 1);
                    (py "description", PStr (py "In Queue"))])]).

(** The engine reports a finished run whose [stdout] is not base64 (three
    data characters, no padding) and that has no [compile_output]. *)
Definition finished_result : list (pystr * value) :=
  [ (py "status",
     PDict [(py "id", PInt 3); (py "description", PStr (py "Accepted"))]);
    (py "stdout", PStr (py "abc"));
    (py "stderr", PNone);
    (py "time", PStr (py "0.002"));
    (py "memory", PInt 3264) ].

Definition finished : response := answer 200 (PDict finished_result).

(** The engine is overloaded and answers 503. *)
Definition overloaded : response :=
  {| status_code := 503; text := py "queue is full"; json_body := None |}.

(** The engine does not know the token. *)
Definition not_found : response :=
  {| status_code := 404; text := py "not found"; json_body := None |}.

(** A request for a language the table does not have. *)
Definition cobol_request : flask_request :=
  {| get_json := Returns (PDict [(py "language", PStr (py "COBOL"))]) |}.

(** A request that has no [language] field. *)
Definition code_only_request : flask_request :=
  {| get_json := Returns (PDict [(py "code", PStr (py "print(1)"))]) |}.

(** The check of one sextet against the two base64 tables. *)
Definition alphabet_ok (s : Z) : bool :=
  (Base64.table_a2b_base64 (Base64.b2a s) =? s)
  && negb (Base64.b2a s =? Base64.BASE64_PAD)
  && (0 <=? Base64.b2a s) && (Base64.b2a s <? 128).

(** ** The paths of the handlers *)

(** The bodies the handlers answer with. *)
Definition invalid_payload : value := error_body (py "Invalid JSON payload").

Definition unsupported_language (language_name : pystr) : value :=
  error_body (py "Unsupported language: " ++ language_name).

Definition submit_failed : value :=
  error_body (py "An unexpected server error occurred.").

Definition submit_refused (r : response) : value :=
  error_body_details (py "Failed to submit code to compiler service.")
    (text r).

Definition token_required : value := error_body (py "Token is required").

Definition token_unknown : value :=
  error_body (py "Invalid or expired token.").

Definition poll_failed : value :=
  error_body (py "An unexpected server error occurred during polling.").

Definition poll_refused (r : response) : value :=
  error_body_details
    (py "Failed to retrieve results from compiler service.") (text r).

Definition pending : value :=
  PDict [(py "status", PDict [(py "description", PStr (py "Pending"))])].

(** The result of a finished run, as [get_status] builds it. *)
Definition final_result (status : list (pystr * value))
  (stdout stderr compile_output : pystr) (result : list (pystr * value))
  : value :=
  PDict [ (py "status",
           find_or (py "description") status (PStr (py "Unknown Error")));
          (py "stdout", PStr stdout);
          (py "stderr", PStr stderr);
          (py "compile_output", PStr compile_output);
          (py "time", find_or (py "time") result PNone);
          (py "memory", find_or (py "memory") result PNone) ].

Definition is_dict (v : value) : bool :=
  match v with PDict _ => true | _ => false end.

Definition is_str (v : value) : bool :=
  match v with PStr _ => true | _ => false end.


(** What [request.get_json()] raises: the body is not JSON, or is not
    announced as JSON. *)
Definition flask_error (e : exn) : Prop :=
  e = BadRequest \/ e = UnsupportedMediaType.

(** The answer of the engine to a submission cannot be used: it is not
    JSON, or it is JSON but no object. [e] is what the handler raises. *)
Definition unusable_answer (r : response) (e : exn) : Prop :=
  (json_body r = None /\ e = JSONDecodeError)
  \/ (exists v, json_body r = Some v /\ is_dict v = false
                /\ e = AttributeError).

(** The answer of the engine to a poll cannot be used: as above, or its
    [status] is no object. *)
Definition unusable_status (r : response) (e : exn) : Prop :=
  unusable_answer r e
  \/ (exists result,
        json_body r = Some (PDict result)
        /\ is_dict (find_or (py "status") result (PDict [])) = false
        /\ e = AttributeError).

(** A value [submit_code] cannot turn into base64: it is no string, or it
    is a string that holds a surrogate. *)
Definition not_encodable (v : value) : Prop :=
  forall s, v = PStr s -> Exists (fun c => is_surrogate c = true) s.

(** The characters [b64decode] reads: the alphabet and the padding. *)
Definition significant (c : Z) : bool :=
  (c =? Base64.BASE64_PAD) || (Base64.table_a2b_base64 c <? 64).

(** More sample requests and answers. *)
Definition malformed_request : flask_request :=
  {| get_json := Raises BadRequest |}.

Definition array_request : flask_request :=
  {| get_json := Returns (PList [PStr (py "print(1)")]) |}.

Definition empty_array_request : flask_request :=
  {| get_json := Returns (PList []) |}.

Definition numeric_code_request : flask_request :=
  {| get_json :=
       Returns (PDict [ (py "code", PInt 42);
                        (py "language", PStr (py "Python 3")) ]) |}.

Definition language_only_request : flask_request :=
  {| get_json := Returns (PDict [(py "language", PStr (py "C"))]) |}.

Definition accepted_without_token : response := answer 201 (PDict []).

Definition html_page : response :=
  {| status_code := 200; text := py "<html>"; json_body := None |}.

(** A finished run that printed a line, [hi]. *)
Definition printed_result : list (pystr * value) :=
  [ (py "status",
     PDict [(py "id", PInt 3); (py "description", PStr (py "Accepted"))]);
    (py "stdout", PStr (py "aGkK"));
    (py "time", PStr (py "0.002"));
    (py "memory", PInt 3264) ].

Definition printed : response := answer 200 (PDict printed_result).

Section Paths.

Variable py_repr : value -> pystr.
Variable remote : outbound_call -> transport_error + response.
Variable request : flask_request.
Variable w : world.

(** The paths through [submit_code]: what the handler returns and the
    world it leaves, by what it meets on the way. *)
Inductive submit_case : outcome flask_response * world -> Prop :=
| Submit_unreadable e :
    get_json request = Raises e ->
    (forall r, e <> HTTPError r) ->
    submit_case (Returns (submit_failed, 500),
                 record_log (LogException (py "Internal Server Error: ") e) w)
| Submit_unreadable_http r :
    get_json request = Raises (HTTPError r) ->
    submit_case (Returns (submit_refused r, 502),
                 record_log (LogError (py "Judge0 API Error: " ++ text r)) w)
| Submit_falsy data :
    get_json request = Returns data ->
    truthy data = false ->
    submit_case (Returns (invalid_payload, 400), w)
| Submit_not_object data :
    get_json request = Returns data ->
    truthy data = true -> is_dict data = false ->
    submit_case (Returns (submit_failed, 500),
                 record_log
                   (LogException (py "Internal Server Error: ") AttributeError)
                   w)
| Submit_unhashable code language_name stdin :
    reads request code language_name stdin ->
    hashable language_name = false ->
    submit_case (Returns (submit_failed, 500),
                 record_log
                   (LogException (py "Internal Server Error: ") TypeError) w)
| Submit_unsupported code language_name stdin :
    reads request code language_name stdin ->
    hashable language_name = true ->
    ~ is_language_key language_name ->
    submit_case (Returns (unsupported_language (py_str py_repr language_name),
                          400), w)
| Submit_not_encodable code name stdin id e :
    reads request code (PStr name) stdin ->
    In (name, id) LANGUAGE_MAP ->
    b64_of_text code = Raises e
    \/ (exists ec, b64_of_text code = Returns ec)
       /\ b64_of_text stdin = Raises e ->
    submit_case (Returns (submit_failed, 500),
                 record_log (LogException (py "Internal Server Error: ") e) w)
| Submit_unreachable code name stdin id ec es t :
    reads request code (PStr name) stdin ->
    In (name, id) LANGUAGE_MAP ->
    b64_of_text code = Returns ec -> b64_of_text stdin = Returns es ->
    remote (submission_call ec id es) = inl t ->
    submit_case (Returns (submit_failed, 500),
                 record_log
                   (LogException (py "Internal Server Error: ") (Transport t))
                   (record_call (submission_call ec id es) w))
| Submit_refused code name stdin id ec es r :
    reads request code (PStr name) stdin ->
    In (name, id) LANGUAGE_MAP ->
    b64_of_text code = Returns ec -> b64_of_text stdin = Returns es ->
    remote (submission_call ec id es) = inr r ->
    http_error_status r = true ->
    submit_case (Returns (submit_refused r, 502),
                 record_log (LogError (py "Judge0 API Error: " ++ text r))
                   (record_call (submission_call ec id es) w))
| Submit_unusable code name stdin id ec es r e :
    reads request code (PStr name) stdin ->
    In (name, id) LANGUAGE_MAP ->
    b64_of_text code = Returns ec -> b64_of_text stdin = Returns es ->
    remote (submission_call ec id es) = inr r ->
    http_error_status r = false ->
    unusable_answer r e ->
    submit_case (Returns (submit_failed, 500),
                 record_log (LogException (py "Internal Server Error: ") e)
                   (record_call (submission_call ec id es) w))
| Submit_accepted code name stdin id ec es r body :
    reads request code (PStr name) stdin ->
    In (name, id) LANGUAGE_MAP ->
    b64_of_text code = Returns ec -> b64_of_text stdin = Returns es ->
    remote (submission_call ec id es) = inr r ->
    http_error_status r = false ->
    json_body r = Some (PDict body) ->
    submit_case
      (Returns (PDict [(py "token", find_or (py "token") body PNone)], 202),
       record_log
         (LogInfo (py "Submission successful. Token: "
                   ++ py_str py_repr (find_or (py "token") body PNone)))
         (record_call (submission_call ec id es) w)).

Variable token : pystr.

(** The paths through [get_status]. *)
Inductive poll_case : outcome flask_response * world -> Prop :=
| Poll_no_token :
    token = [] ->
    poll_case (Returns (token_required, 400), w)
| Poll_unreachable t :
    token <> [] ->
    remote (status_call token) = inl t ->
    poll_case (Returns (poll_failed, 500),
               record_log
                 (LogException (py "Internal Polling Error: ") (Transport t))
                 (record_call (status_call token) w))
| Poll_not_found r :
    token <> [] ->
    remote (status_call token) = inr r ->
    status_code r = 404 ->
    poll_case (Returns (token_unknown, 404),
               record_call (status_call token) w)
| Poll_refused r :
    token <> [] ->
    remote (status_call token) = inr r ->
    http_error_status r = true -> status_code r <> 404 ->
    poll_case (Returns (poll_refused r, 502),
               record_log (LogError (py "Judge0 Polling Error: " ++ text r))
                 (record_call (status_call token) w))
| Poll_unusable r e :
    token <> [] ->
    remote (status_call token) = inr r ->
    http_error_status r = false ->
    unusable_status r e ->
    poll_case (Returns (poll_failed, 500),
               record_log (LogException (py "Internal Polling Error: ") e)
                 (record_call (status_call token) w))
| Poll_pending r result status :
    token <> [] ->
    remote (status_call token) = inr r ->
    http_error_status r = false ->
    json_body r = Some (PDict result) ->
    find_or (py "status") result (PDict []) = PDict status ->
    py_in (find_or (py "id") status PNone) [1; 2] = true ->
    poll_case (Returns (pending, 200), record_call (status_call token) w)
| Poll_finished r result status stdout stderr compile_output :
    token <> [] ->
    remote (status_call token) = inr r ->
    http_error_status r = false ->
    json_body r = Some (PDict result) ->
    find_or (py "status") result (PDict []) = PDict status ->
    py_in (find_or (py "id") status PNone) [1; 2] = false ->
    decode_base64_output py_repr (find_or (py "stdout") result PNone)
    = Returns stdout ->
    decode_base64_output py_repr (find_or (py "stderr") result PNone)
    = Returns stderr ->
    decode_base64_output py_repr (find_or (py "compile_output") result PNone)
    = Returns compile_output ->
    poll_case (Returns (final_result status stdout stderr compile_output result,
                        200),
               record_call (status_call token) w).

End Paths.

(** * Properties *)

(** ** Bit operations as arithmetic *)

Lemma lor_add (a b : Z) : Z.land a b = 0 -> Z.lor a b = a + b.
Proof.
  intros H. rewrite (Z.add_nocarry_lxor a b H). symmetry.
  apply Z.lxor_lor. exact H.
Qed.

Lemma land_high_low (hi lo k : Z) :
  0 <= k -> 0 <= lo < 2 ^ k -> Z.land (hi * 2 ^ k) lo = 0.
Proof.
  intros Hk Hlo. apply Z.bits_inj'. intros n Hn.
  rewrite Z.land_spec, Z.bits_0.
  destruct (Z.lt_ge_cases n k) as [Hlt | Hge].
  - rewrite Z.mul_pow2_bits_low by lia. reflexivity.
  - rewrite <- (Z.mod_small lo (2 ^ k)) by lia.
    rewrite Z.mod_pow2_bits_high by lia. apply andb_false_r.
Qed.

(** Bits set above position [k] and a value below [2 ^ k] do not overlap. *)
Lemma lor_high_low (hi lo k : Z) :
  0 <= k -> 0 <= lo < 2 ^ k -> Z.lor (hi * 2 ^ k) lo = hi * 2 ^ k + lo.
Proof. intros. apply lor_add. apply land_high_low; assumption. Qed.

Lemma lor_0x80 y : 0 <= y < 64 -> Z.lor 0x80 y = 128 + y.
Proof. intros. apply (lor_high_low 2 y 6); lia. Qed.

Lemma lor_0xC0 y : 0 <= y < 32 -> Z.lor 0xC0 y = 192 + y.
Proof. intros. apply (lor_high_low 6 y 5); lia. Qed.

Lemma lor_0xE0 y : 0 <= y < 16 -> Z.lor 0xE0 y = 224 + y.
Proof. intros. apply (lor_high_low 14 y 4); lia. Qed.

Lemma lor_0xF0 y : 0 <= y < 8 -> Z.lor 0xF0 y = 240 + y.
Proof. intros. apply (lor_high_low 30 y 3); lia. Qed.

Lemma land_0x3F x : Z.land x 0x3F = x mod 64.
Proof. apply (Z.land_ones x 6). lia. Qed.

(** Settles the comparisons of the goal that [lia] decides. *)
Ltac ztest :=
  repeat match goal with
  | |- context [?a <? ?b] =>
      first [ replace (a <? b) with true by (symmetry; apply Z.ltb_lt; lia)
            | replace (a <? b) with false by (symmetry; apply Z.ltb_ge; lia) ]
  | |- context [?a <=? ?b] =>
      first [ replace (a <=? b) with true by (symmetry; apply Z.leb_le; lia)
            | replace (a <=? b) with false by (symmetry; apply Z.leb_gt; lia) ]
  end.

Ltac arith := Z.div_mod_to_equations; lia.

(** ** The UTF-8 decoder on well-formed sequences *)

Lemma utf8_decode_1 e b rest :
  0 <= b < 0x80 ->
  Utf8.decode e (b :: rest) = option_map (cons b) (Utf8.decode e rest).
Proof. intros H. cbn [Utf8.decode]. ztest. reflexivity. Qed.

Lemma utf8_decode_2 e b0 b1 rest :
  0xC2 <= b0 < 0xE0 -> 0x80 <= b1 < 0xC0 ->
  Utf8.decode e (b0 :: b1 :: rest)
  = option_map (cons (b0 * 64 + b1 - 12416)) (Utf8.decode e rest).
Proof.
  intros H0 H1. cbn [Utf8.decode]. unfold Utf8.is_continuation. ztest.
  cbn [andb negb]. rewrite Z.shiftl_mul_pow2 by lia. reflexivity.
Qed.

Ltac continuation b :=
  replace ((0x80 <=? b) && (b <? 0xC0)) with true
    by (symmetry; apply andb_true_iff;
        split; [apply Z.leb_le | apply Z.ltb_lt]; lia).

Lemma utf8_decode_3 e b0 b1 b2 rest :
  0xE0 <= b0 < 0xF0 -> 0x80 <= b1 < 0xC0 -> 0x80 <= b2 < 0xC0 ->
  (b0 = 0xE0 -> 0xA0 <= b1) -> (b0 = 0xED -> b1 < 0xA0) ->
  Utf8.decode e (b0 :: b1 :: b2 :: rest)
  = option_map (cons (b0 * 4096 + b1 * 64 + b2 - 925824))
      (Utf8.decode e rest).
Proof.
  intros H0 H1 H2 HE0 HED. cbn [Utf8.decode]. unfold Utf8.is_continuation.
  replace (b0 <? 0x80) with false by (symmetry; apply Z.ltb_ge; lia).
  replace (b0 <? 0xE0) with false by (symmetry; apply Z.ltb_ge; lia).
  replace (b0 <? 0xF0) with true by (symmetry; apply Z.ltb_lt; lia).
  continuation b1. continuation b2.
  replace (if b1 <? 0xA0 then b0 =? 0xE0 else b0 =? 0xED) with false.
  2:{ symmetry. destruct (Z.ltb_spec b1 0xA0); apply Z.eqb_neq; lia. }
  cbn [andb negb orb]. rewrite !Z.shiftl_mul_pow2 by lia. reflexivity.
Qed.

Lemma utf8_decode_4 e b0 b1 b2 b3 rest :
  0xF0 <= b0 < 0xF5 -> 0x80 <= b1 < 0xC0 -> 0x80 <= b2 < 0xC0 ->
  0x80 <= b3 < 0xC0 ->
  (b0 = 0xF0 -> 0x90 <= b1) -> (b0 = 0xF4 -> b1 < 0x90) ->
  Utf8.decode e (b0 :: b1 :: b2 :: b3 :: rest)
  = option_map (cons (b0 * 262144 + b1 * 4096 + b2 * 64 + b3 - 63447168))
      (Utf8.decode e rest).
Proof.
  intros H0 H1 H2 H3 HF0 HF4. cbn [Utf8.decode].
  unfold Utf8.is_continuation.
  replace (b0 <? 0x80) with false by (symmetry; apply Z.ltb_ge; lia).
  replace (b0 <? 0xE0) with false by (symmetry; apply Z.ltb_ge; lia).
  replace (b0 <? 0xF0) with false by (symmetry; apply Z.ltb_ge; lia).
  replace (b0 <? 0xF5) with true by (symmetry; apply Z.ltb_lt; lia).
  continuation b1. continuation b2. continuation b3.
  replace (if b1 <? 0x90 then b0 =? 0xF0 else b0 =? 0xF4) with false.
  2:{ symmetry. destruct (Z.ltb_spec b1 0x90); apply Z.eqb_neq; lia. }
  cbn [andb negb orb]. rewrite !Z.shiftl_mul_pow2 by lia. reflexivity.
Qed.

Ltac to_arith :=
  rewrite ?land_0x3F, ?Z.shiftr_div_pow2 by lia;
  change (2 ^ 6) with 64; change (2 ^ 12) with 4096;
  change (2 ^ 18) with 262144.

(** A code point that is no surrogate has an encoding, made of octets,
    that either decoder reads back as that code point. *)
Lemma utf8_encode_char_decode c :
  is_codepoint c -> is_surrogate c = false ->
  exists b, Utf8.encode_char c = Some b /\ Forall is_byte b /\
    forall e rest,
      Utf8.decode e (b ++ rest) = option_map (cons c) (Utf8.decode e rest).
Proof.
  unfold is_codepoint, Utf8.encode_char. intros Hc Hs.
  destruct (Z.ltb_spec c 0x80) as [H1 | H1].
  { eexists; split; [reflexivity | split].
    - repeat constructor; unfold is_byte; lia.
    - intros. apply utf8_decode_1. lia. }
  destruct (Z.ltb_spec c 0x800) as [H2 | H2].
  { eexists; split; [reflexivity | ]. to_arith.
    rewrite lor_0xC0, lor_0x80 by arith. split.
    - repeat constructor; unfold is_byte; arith.
    - intros. cbn [app]. rewrite utf8_decode_2 by arith.
      do 2 f_equal. arith. }
  destruct (Z.ltb_spec c 0x10000) as [H3 | H3].
  { rewrite Hs. unfold is_surrogate in Hs.
    assert (Hns : c < 0xD800 \/ 0xDFFF < c).
    { apply andb_false_iff in Hs.
      destruct Hs as [Hs | Hs]; apply Z.leb_gt in Hs; lia. }
    eexists; split; [reflexivity | ]. to_arith.
    rewrite lor_0xE0, !lor_0x80 by arith. split.
    - repeat constructor; unfold is_byte; arith.
    - intros. cbn [app]. rewrite utf8_decode_3 by arith.
      do 2 f_equal. arith. }
  eexists; split; [reflexivity | ]. to_arith.
  rewrite lor_0xF0, !lor_0x80 by arith. split.
  - repeat constructor; unfold is_byte; arith.
  - intros. cbn [app]. rewrite utf8_decode_4 by arith.
    do 2 f_equal. arith.
Qed.

(** Text without surrogates encodes, and decodes back to itself. *)
Lemma utf8_encode_decode (s : pystr) :
  utf8_text s ->
  exists b, Utf8.encode s = Some b /\ Forall is_byte b /\
            forall e, Utf8.decode e b = Some s.
Proof.
  induction 1 as [| c s [Hc Hs] _ (b & Hb & Hbytes & IH)].
  - exists []. repeat split; constructor.
  - destruct (utf8_encode_char_decode c Hc Hs) as (bc & Hbc & Hbcb & Hdec).
    exists (bc ++ b). cbn [Utf8.encode]. rewrite Hbc, Hb.
    split; [reflexivity | split].
    + apply Forall_app. split; assumption.
    + intros e. rewrite Hdec, IH. reflexivity.
Qed.

Lemma utf8_decode_ascii e s :
  Forall is_ascii s -> Utf8.decode e s = Some s.
Proof.
  induction 1 as [| c s Hc _ IH]; [reflexivity |].
  rewrite utf8_decode_1 by exact Hc. rewrite IH. reflexivity.
Qed.

Lemma utf8_decode_ignore_length (n : nat) :
  forall s, (List.length s <= n)%nat ->
            exists r, Utf8.decode Utf8.Ignore s = Some r.
Proof.
  induction n as [| n IH]; intros s Hn.
  - destruct s; [exists []; reflexivity | cbn in Hn; lia].
  - assert (Hmap : forall c t, (List.length t <= n)%nat ->
              exists r,
                option_map (cons c) (Utf8.decode Utf8.Ignore t) = Some r).
    { intros c t Ht. destruct (IH t Ht) as [r Hr]. rewrite Hr.
      eexists; reflexivity. }
    destruct s as [| ch s1]; [exists []; reflexivity |].
    cbn [List.length] in Hn. cbn [Utf8.decode Utf8.on_error].
    repeat match goal with
    | |- exists r, Some _ = Some r => eexists; reflexivity
    | |- exists r, option_map _ _ = Some r =>
        apply Hmap; cbn [List.length] in *; lia
    | |- exists r, Utf8.decode Utf8.Ignore _ = Some r =>
        apply IH; cbn [List.length] in *; lia
    | |- context [if ?b then _ else _] => destruct b
    | |- context [match ?l with [] => _ | _ :: _ => _ end] => destruct l
    end.
Qed.

(** With [errors='ignore'] the decoder returns on every input. *)
Lemma utf8_decode_ignore_total s :
  exists r, Utf8.decode Utf8.Ignore s = Some r.
Proof. apply (utf8_decode_ignore_length (List.length s)). lia. Qed.

(** ** Base64: decoding what the encoder wrote *)

Lemma forall_below (n : nat) (P : Z -> bool) :
  forallb P (map Z.of_nat (seq 0 n)) = true ->
  forall x, 0 <= x < Z.of_nat n -> P x = true.
Proof.
  intros H x Hx. rewrite forallb_forall in H. apply H.
  apply in_map_iff. exists (Z.to_nat x). split; [lia | apply in_seq; lia].
Qed.

(** The two tables are inverse on the 64 sextets, and the alphabet is
    ASCII without the padding character. *)
Lemma b2a_spec s :
  0 <= s < 64 ->
  Base64.table_a2b_base64 (Base64.b2a s) = s
  /\ Base64.b2a s <> Base64.BASE64_PAD
  /\ is_ascii (Base64.b2a s).
Proof.
  intros Hs.
  assert (H : alphabet_ok s = true).
  { apply (forall_below 64); [vm_compute; reflexivity | lia]. }
  unfold alphabet_ok in H.
  apply andb_true_iff in H. destruct H as [H H4].
  apply andb_true_iff in H. destruct H as [H H3].
  apply andb_true_iff in H. destruct H as [H1 H2].
  apply Z.eqb_eq in H1. apply negb_true_iff, Z.eqb_neq in H2.
  apply Z.leb_le in H3. apply Z.ltb_lt in H4.
  unfold is_ascii. auto.
Qed.

Lemma b2a_ascii x : is_ascii (Base64.b2a x).
Proof.
  destruct (Z_lt_le_dec x 0) as [Hneg | Hpos].
  - unfold Base64.b2a. replace (Z.to_nat x) with 0%nat by lia.
    unfold is_ascii. vm_compute. split; [discriminate | reflexivity].
  - destruct (Z_lt_le_dec x 64) as [Hlt | Hge].
    + apply b2a_spec. lia.
    + unfold Base64.b2a, is_ascii. rewrite nth_overflow; [lia |].
      change (List.length Base64.table_b2a_base64) with 64%nat. lia.
Qed.

(** One data character read by the loop. *)
Lemma a2b_loop_data s rest q lc p :
  0 <= s < 64 ->
  Base64.a2b_loop (Base64.b2a s :: rest) q lc p =
    if q =? 0 then Base64.a2b_loop rest 1 s 0
    else if q =? 1 then
      option_map (cons ((lc * 4 + s / 16) mod 256))
        (Base64.a2b_loop rest 2 (s mod 16) 0)
    else if q =? 2 then
      option_map (cons ((lc * 16 + s / 4) mod 256))
        (Base64.a2b_loop rest 3 (s mod 4) 0)
    else option_map (cons ((lc * 64 + s) mod 256))
           (Base64.a2b_loop rest 0 0 0).
Proof.
  intros Hs. destruct (b2a_spec s Hs) as (Ht & Hp & _).
  cbn [Base64.a2b_loop]. rewrite Ht.
  replace (Base64.b2a s =? Base64.BASE64_PAD) with false
    by (symmetry; apply Z.eqb_neq; exact Hp).
  replace (64 <=? s) with false by (symmetry; apply Z.leb_gt; lia).
  cbv zeta.
  change 0xFF with (Z.ones 8). change 0x0F with (Z.ones 4).
  change 0x03 with (Z.ones 2).
  rewrite !Z.land_ones, !Z.shiftl_mul_pow2, !Z.shiftr_div_pow2 by lia.
  rewrite (lor_high_low lc (s / 2 ^ 4) 2) by arith.
  rewrite (lor_high_low lc (s / 2 ^ 2) 4) by arith.
  rewrite (lor_high_low lc s 6) by lia.
  reflexivity.
Qed.

(** A full group of four data characters gives three octets. *)
Lemma a2b_loop_group s0 s1 s2 s3 rest lc p :
  0 <= s0 < 64 -> 0 <= s1 < 64 -> 0 <= s2 < 64 -> 0 <= s3 < 64 ->
  Base64.a2b_loop
    (Base64.b2a s0 :: Base64.b2a s1 :: Base64.b2a s2 :: Base64.b2a s3 :: rest)
    0 lc p =
    option_map
      (fun r => (s0 * 4 + s1 / 16) mod 256
                :: ((s1 mod 16) * 16 + s2 / 4) mod 256
                :: ((s2 mod 4) * 64 + s3) mod 256 :: r)
      (Base64.a2b_loop rest 0 0 0).
Proof.
  intros H0 H1 H2 H3.
  rewrite !a2b_loop_data by assumption. cbn [Z.eqb Pos.eqb].
  destruct (Base64.a2b_loop rest 0 0 0); reflexivity.
Qed.

(** Two data characters and two pads give one octet. *)
Lemma a2b_loop_tail1 s0 s1 lc p :
  0 <= s0 < 64 -> 0 <= s1 < 64 ->
  Base64.a2b_loop
    [Base64.b2a s0; Base64.b2a s1; Base64.BASE64_PAD; Base64.BASE64_PAD]
    0 lc p =
    Some [(s0 * 4 + s1 / 16) mod 256].
Proof.
  intros H0 H1. rewrite !a2b_loop_data by assumption. reflexivity.
Qed.

(** Three data characters and one pad give two octets. *)
Lemma a2b_loop_tail2 s0 s1 s2 lc p :
  0 <= s0 < 64 -> 0 <= s1 < 64 -> 0 <= s2 < 64 ->
  Base64.a2b_loop
    [Base64.b2a s0; Base64.b2a s1; Base64.b2a s2; Base64.BASE64_PAD]
    0 lc p =
    Some [(s0 * 4 + s1 / 16) mod 256; ((s1 mod 16) * 16 + s2 / 4) mod 256].
Proof.
  intros H0 H1 H2. rewrite !a2b_loop_data by assumption. reflexivity.
Qed.

(** The four sextets of three octets. *)
Lemma b64encode_group b0 b1 b2 rest :
  is_byte b0 -> is_byte b1 -> is_byte b2 ->
  Base64.b64encode (b0 :: b1 :: b2 :: rest) =
    Base64.b2a (b0 / 4) :: Base64.b2a ((b0 mod 4) * 16 + b1 / 16)
    :: Base64.b2a ((b1 mod 16) * 4 + b2 / 64) :: Base64.b2a (b2 mod 64)
    :: Base64.b64encode rest.
Proof.
  unfold is_byte. intros H0 H1 H2. cbn [Base64.b64encode].
  change 3 with (Z.ones 2) at 1. change 0xF with (Z.ones 4).
  change 0x3F with (Z.ones 6).
  rewrite !Z.land_ones, !Z.shiftl_mul_pow2, !Z.shiftr_div_pow2 by lia.
  rewrite (lor_high_low (b0 mod 2 ^ 2) (b1 / 2 ^ 4) 4) by arith.
  rewrite (lor_high_low (b1 mod 2 ^ 4) (b2 / 2 ^ 6) 2) by arith.
  reflexivity.
Qed.

(** Induction on a list, three elements at a time. *)
Lemma list_ind3 {A} (P : list A -> Prop) :
  P [] -> (forall a, P [a]) -> (forall a b, P [a; b]) ->
  (forall a b c l, P l -> P (a :: b :: c :: l)) ->
  forall l, P l.
Proof.
  intros H0 H1 H2 H3.
  assert (H : forall l,
             P l /\ (forall a, P (a :: l)) /\ (forall a b, P (a :: b :: l))).
  { induction l as [| x l (IH0 & IH1 & IH2)]; repeat split; auto. }
  intros l. apply H.
Qed.

(** [b64decode] undoes [b64encode] on every sequence of octets. *)
Lemma a2b_b64encode s :
  Forall is_byte s -> Base64.a2b_base64 (Base64.b64encode s) = Some s.
Proof.
  unfold Base64.a2b_base64.
  induction s as [| b0 | b0 b1 | b0 b1 b2 rest IH] using list_ind3;
    intros Hs.
  - reflexivity.
  - inversion Hs as [| ? ? H0 _]; subst. unfold is_byte in H0.
    cbn [Base64.b64encode]. change 3 with (Z.ones 2).
    rewrite !Z.land_ones, !Z.shiftl_mul_pow2, !Z.shiftr_div_pow2 by lia.
    rewrite a2b_loop_tail1 by arith.
    do 2 f_equal. arith.
  - inversion Hs as [| ? ? H0 Hs']; subst.
    inversion Hs' as [| ? ? H1 _]; subst. unfold is_byte in H0, H1.
    cbn [Base64.b64encode].
    change 3 with (Z.ones 2) at 1. change 0xF with (Z.ones 4).
    rewrite !Z.land_ones, !Z.shiftl_mul_pow2, !Z.shiftr_div_pow2 by lia.
    rewrite (lor_high_low (b0 mod 2 ^ 2) (b1 / 2 ^ 4) 4) by arith.
    rewrite a2b_loop_tail2 by arith.
    f_equal. f_equal; [| f_equal]; arith.
  - inversion Hs as [| ? ? H0 Hs']; subst.
    inversion Hs' as [| ? ? H1 Hs'']; subst.
    inversion Hs'' as [| ? ? H2 Hr]; subst.
    rewrite b64encode_group by assumption. unfold is_byte in H0, H1, H2.
    rewrite a2b_loop_group by arith.
    rewrite (IH Hr). cbn [option_map].
    f_equal. f_equal; [| f_equal; [| f_equal]]; arith.
Qed.

(** The encoder writes ASCII only. *)
Lemma b64encode_ascii s : Forall is_ascii (Base64.b64encode s).
Proof.
  induction s as [| b0 | b0 b1 | b0 b1 b2 rest IH] using list_ind3;
    cbn [Base64.b64encode];
    repeat (constructor; try apply b2a_ascii); try assumption;
    unfold is_ascii, Base64.BASE64_PAD; lia.
Qed.

Lemma is_ascii_forallb s :
  Forall is_ascii s -> forallb (fun c => (0 <=? c) && (c <? 128)) s = true.
Proof.
  intros H. apply forallb_forall. rewrite Forall_forall in H.
  intros c Hc. specialize (H c Hc). unfold is_ascii in H.
  apply andb_true_iff. split; [apply Z.leb_le | apply Z.ltb_lt]; lia.
Qed.

(** ** The helpers of the application *)

Lemma pystr_eqb_eq a b : pystr_eqb a b = true <-> a = b.
Proof.
  unfold pystr_eqb. destruct (list_eq_dec Z.eq_dec a b); split; congruence.
Qed.

Lemma lookup_In k d v : lookup k d = Some v -> In (k, v) d.
Proof.
  induction d as [| [k' v'] d IH]; cbn [lookup]; [discriminate |].
  destruct (pystr_eqb k k') eqn:E.
  - apply pystr_eqb_eq in E. intros [= ->]. subst. left. reflexivity.
  - intros H. right. auto.
Qed.

Lemma lookup_None k d : lookup k d = None -> forall v, ~ In (k, v) d.
Proof.
  induction d as [| [k' v'] d IH]; cbn [lookup]; intros H v Hin.
  - exact Hin.
  - destruct (pystr_eqb k k') eqn:E; [discriminate |].
    destruct Hin as [[= -> ->] | Hin].
    + assert (pystr_eqb k k = true) by (apply pystr_eqb_eq; reflexivity).
      congruence.
    + exact (IH H v Hin).
Qed.

Lemma lookup_not_In k d : (forall v, ~ In (k, v) d) -> lookup k d = None.
Proof.
  intros H. destruct (lookup k d) as [v |] eqn:E; [| reflexivity].
  exfalso. exact (H v (lookup_In _ _ _ E)).
Qed.

(** Every entry of the language table is found under its name, and its
    identifier is a non-zero [int]. *)
Lemma LANGUAGE_MAP_entry name id :
  In (name, id) LANGUAGE_MAP ->
  lookup name LANGUAGE_MAP = Some id /\ truthy id = true.
Proof.
  unfold LANGUAGE_MAP. cbn [In]. intros H.
  repeat (destruct H as [[= <- <-] | H]; [split; reflexivity |]).
  contradiction.
Qed.

(** Text without surrogates has a base64 form: that of its UTF-8 octets. *)
Lemma b64_of_text_utf8 s :
  utf8_text s ->
  exists b, Utf8.encode s = Some b /\ Forall is_byte b
            /\ (forall e, Utf8.decode e b = Some s)
            /\ b64_of_text (PStr s) = Returns (Base64.b64encode b).
Proof.
  intros Hs. destruct (utf8_encode_decode s Hs) as (b & Hb & Hbytes & Hdec).
  exists b. repeat split; try assumption.
  unfold b64_of_text, py_encode. rewrite Hb. cbn [obind].
  unfold bytes_decode. rewrite utf8_decode_ascii by apply b64encode_ascii.
  reflexivity.
Qed.

Section Properties.

Variable py_repr : value -> pystr.
Variable remote : outbound_call -> transport_error + response.

(** Within the limit on digits, [str] returns. *)
Lemma str_within v :
  within_limit v = true -> str py_repr v = Returns (py_str py_repr v).
Proof. intros H. unfold str. rewrite H. reflexivity. Qed.

(** What a dict within the limit gives for a key is within it, when the
    default is. *)
Lemma within_limit_find_or k d default :
  within_limit (PDict d) = true -> within_limit default = true ->
  within_limit (find_or k d default) = true.
Proof.
  intros Hd Hdef. unfold find_or.
  destruct (lookup k d) as [v |] eqn:Hl; [| exact Hdef].
  apply lookup_In in Hl. cbn [within_limit] in Hd.
  rewrite forallb_forall in Hd. exact (Hd _ Hl).
Qed.

(** What [request.get_json()] returns is within the limit. *)
Lemma get_json_within request v :
  get_json request = Returns v -> within_limit v = true.
Proof.
  intros H. pose proof (get_json_delivered request) as P.
  unfold Delivered in P. rewrite H in P. exact P.
Qed.

(** What [response.json()] returns is within the limit. *)
Lemma json_body_within r v :
  json_body r = Some v -> within_limit v = true.
Proof.
  intros H. pose proof (json_body_parsed r) as P.
  unfold Parsed in P. rewrite H in P. exact P.
Qed.

Lemma decode_base64_output_b64 b s :
  Forall is_byte b -> Utf8.decode Utf8.Ignore b = Some s ->
  decode_base64_output py_repr (PStr (Base64.b64encode b)) = Returns s.
Proof.
  intros Hb Hs. unfold decode_base64_output, b64decode.
  rewrite is_ascii_forallb by apply b64encode_ascii.
  rewrite a2b_b64encode by exact Hb. cbn [obind].
  unfold bytes_decode. rewrite Hs. reflexivity.
Qed.

(** What [b64decode] raises on a [str], the helper catches. *)
Lemma decode_base64_output_undecodable s e :
  b64decode (PStr s) = Raises e ->
  decode_base64_output py_repr (PStr s) = Returns s.
Proof.
  unfold decode_base64_output. intros H. rewrite H. cbn [obind otry].
  unfold b64decode in H.
  destruct (forallb _ s); [destruct (Base64.a2b_base64 s) |];
    inversion H; subst; reflexivity.
Qed.

Lemma decode_base64_output_total data :
  within_limit data = true ->
  exists s, decode_base64_output py_repr data = Returns s.
Proof.
  intros Hw. unfold decode_base64_output.
  destruct data as [| b | n | f | s | l | d];
    try (cbn [b64decode obind otry isinstance_TypeError orb];
         rewrite (str_within _ Hw); eexists; reflexivity);
    try (eexists; reflexivity).
  cbn [b64decode].
  destruct (forallb _ s); [| eexists; reflexivity].
  destruct (Base64.a2b_base64 s) as [b |]; [| eexists; reflexivity].
  cbn [obind]. unfold bytes_decode.
  destruct (utf8_decode_ignore_total b) as [r Hr]. rewrite Hr.
  eexists; reflexivity.
Qed.

(** ** The handlers, path by path *)

Lemma truthy_token token : token <> [] -> truthy (PStr token) = true.
Proof. destruct token; [congruence | reflexivity]. Qed.

Lemma truthy_dict d : d <> [] -> truthy (PDict d) = true.
Proof. destruct d; [congruence | reflexivity]. Qed.

Lemma py_get_dict k d default :
  py_get (PDict d) (PStr k) default = Returns (find_or k d default).
Proof. reflexivity. Qed.

(** The whole of [submit_code] on a request that reaches the remote
    engine, by the answer of the engine. *)
Lemma submit_code_forwarded request code name stdin id ec es w :
  reads request code (PStr name) stdin ->
  In (name, id) LANGUAGE_MAP ->
  b64_of_text code = Returns ec -> b64_of_text stdin = Returns es ->
  let call := submission_call ec id es in
  let w' := record_call call w in
  submit_code py_repr remote request w =
    match remote call with
    | inl t =>
        (Returns (error_body (py "An unexpected server error occurred."), 500),
         record_log (LogException (py "Internal Server Error: ") (Transport t))
           w')
    | inr r =>
        if http_error_status r then
          (Returns (error_body_details
                      (py "Failed to submit code to compiler service.")
                      (text r), 502),
           record_log (LogError (py "Judge0 API Error: " ++ text r)) w')
        else
          match json_body r with
          | Some (PDict body) =>
              let token := find_or (py "token") body PNone in
              (Returns (PDict [(py "token", token)], 202),
               record_log (LogInfo (py "Submission successful. Token: "
                                    ++ py_str py_repr token)) w')
          | Some _ =>
              (Returns (error_body (py "An unexpected server error occurred."),
                        500),
               record_log
                 (LogException (py "Internal Server Error: ") AttributeError)
                 w')
          | None =>
              (Returns (error_body (py "An unexpected server error occurred."),
                        500),
               record_log
                 (LogException (py "Internal Server Error: ") JSONDecodeError)
                 w')
          end
    end.
Proof.
  intros (data & Hjson & Hdata & Hcode & Hlang & Hstdin) Hin Hec Hes call w'.
  destruct (LANGUAGE_MAP_entry name id Hin) as [Hlook Htrue].
  unfold submit_code, try_except, bind, lift.
  rewrite Hjson, (truthy_dict data Hdata). cbn [negb py_get].
  rewrite Hcode, Hlang, Hstdin. cbn [hashable py_get].
  unfold find_or. rewrite Hlook, Htrue. cbn [negb].
  rewrite Hec, Hes. unfold requests_post, send.
  fold (submission_call ec id es). fold call. fold w'.
  destruct (remote call) as [t | r]; [reflexivity |].
  unfold raise_for_status.
  destruct (http_error_status r); [reflexivity |].
  cbn. unfold response_json.
  destruct (json_body r) as [[| | | | | | body] |] eqn:Hbody;
    try reflexivity.
  unfold ret. cbv beta iota. rewrite py_get_dict. cbv beta iota.
  rewrite str_within; [reflexivity |].
  apply within_limit_find_or;
    [exact (json_body_within r _ Hbody) | reflexivity].
Qed.

(** A value that is no name of the table is not found in it. *)
Lemma LANGUAGE_MAP_miss v :
  hashable v = true -> ~ is_language_key v ->
  py_get (PDict LANGUAGE_MAP) v PNone = Returns PNone.
Proof.
  intros Hh Hk. destruct v; try discriminate Hh; try reflexivity.
  cbn [py_get]. unfold find_or. rewrite lookup_not_In; [reflexivity |].
  intros id Hin. apply Hk. exists s, id. auto.
Qed.

(** [submit_code] on a request whose language is not found: nothing is
    sent, nothing is logged. *)
Lemma submit_code_unsupported request data language_name w :
  get_json request = Returns (PDict data) -> data <> [] ->
  find_or (py "language") data (PStr (py "python")) = language_name ->
  hashable language_name = true -> ~ is_language_key language_name ->
  submit_code py_repr remote request w
  = (Returns (error_body (py "Unsupported language: "
                          ++ py_str py_repr language_name), 400), w).
Proof.
  intros Hjson Hdata Hlang Hh Hk.
  unfold submit_code, try_except, bind, lift.
  rewrite Hjson, (truthy_dict data Hdata). cbn [negb].
  rewrite !py_get_dict, Hlang, (LANGUAGE_MAP_miss language_name Hh Hk).
  rewrite (str_within language_name); [reflexivity |].
  rewrite <- Hlang. apply within_limit_find_or;
    [exact (get_json_within request _ Hjson) | reflexivity].
Qed.

(** [get_status] up to the parsed answer of the engine. *)
Lemma get_status_answered token w r result :
  token <> [] -> remote (status_call token) = inr r ->
  http_error_status r = false -> json_body r = Some (PDict result) ->
  forall status,
    find_or (py "status") result (PDict []) = PDict status ->
    (py_in (find_or (py "id") status PNone) [1; 2] = true ->
     get_status py_repr remote token w
     = (Returns (PDict [(py "status",
                         PDict [(py "description", PStr (py "Pending"))])],
                 200),
        record_call (status_call token) w))
    /\ (py_in (find_or (py "id") status PNone) [1; 2] = false ->
        exists stdout stderr compile_output,
          decode_base64_output py_repr (find_or (py "stdout") result PNone)
          = Returns stdout
          /\ decode_base64_output py_repr (find_or (py "stderr") result PNone)
             = Returns stderr
          /\ decode_base64_output py_repr
               (find_or (py "compile_output") result PNone)
             = Returns compile_output
          /\ get_status py_repr remote token w
             = (Returns
                  (PDict [ (py "status",
                            find_or (py "description") status
                              (PStr (py "Unknown Error")));
                           (py "stdout", PStr stdout);
                           (py "stderr", PStr stderr);
                           (py "compile_output", PStr compile_output);
                           (py "time", find_or (py "time") result PNone);
                           (py "memory", find_or (py "memory") result PNone) ],
                   200),
                record_call (status_call token) w)).
Proof.
  intros Ht Hr Hok Hjson status Hstatus.
  unfold get_status. rewrite (truthy_token token Ht). cbn [negb].
  unfold try_except, bind, requests_get, send, raise_for_status,
    response_json, lift, ret.
  fold (status_call token). rewrite Hr, Hok, Hjson. cbv beta iota.
  rewrite py_get_dict, Hstatus. cbv beta iota. rewrite !py_get_dict.
  assert (Hfield : forall k,
             within_limit (find_or k result PNone) = true).
  { intros k. apply within_limit_find_or;
      [exact (json_body_within r _ Hjson) | reflexivity]. }
  split; intros Hid; rewrite Hid.
  - reflexivity.
  - destruct (decode_base64_output_total
                (find_or (py "stdout") result PNone) (Hfield _))
      as [stdout Hout].
    destruct (decode_base64_output_total
                (find_or (py "stderr") result PNone) (Hfield _))
      as [stderr Herr].
    destruct (decode_base64_output_total
                (find_or (py "compile_output") result PNone) (Hfield _))
      as [compile_output Hcomp].
    exists stdout, stderr, compile_output.
    rewrite Hout, Herr, Hcomp. repeat split; reflexivity.
Qed.

(** ** The claims *)

(** C1: for the request [{code: "print(1)", language: "Python 3",
    stdin: ""}], [submit_code] sends one call to the remote engine, whose
    payload has [language_id] 71, the base64 forms of ["print(1)"] and of
    [""] as [source_code] and [stdin], [cpu_time_limit] 5 and
    [memory_limit] 256000; when the engine answers with a success status
    and a JSON object, the handler returns 202 with the token of that
    answer. *)
Theorem submit_python3_scenario w :
  option_map Base64.b64encode (Utf8.encode (py "print(1)"))
  = Some (py "cHJpbnQoMSk=")
  /\ option_map Base64.b64encode (Utf8.encode (py "")) = Some (py "")
  /\ outbound (snd (submit_code py_repr remote scenario_request w))
     = outbound w ++ [scenario_call]
  /\ forall r body token,
       remote scenario_call = inr r ->
       http_error_status r = false ->
       json_body r = Some (PDict body) ->
       lookup (py "token") body = Some token ->
       fst (submit_code py_repr remote scenario_request w)
       = Returns (PDict [(py "token", token)], 202).
Proof.
  assert (Hc : b64_of_text (PStr (py "print(1)"))
               = Returns (py "cHJpbnQoMSk=")) by (vm_compute; reflexivity).
  assert (Hs : b64_of_text (PStr (py "")) = Returns (py ""))
    by (vm_compute; reflexivity).
  assert (Hreads : reads scenario_request (PStr (py "print(1)"))
                     (PStr (py "Python 3")) (PStr (py ""))).
  { eexists. split; [reflexivity |]. split; [discriminate |].
    repeat split; reflexivity. }
  assert (Hin : In (py "Python 3", PInt 71) LANGUAGE_MAP)
    by (left; reflexivity).
  pose proof (submit_code_forwarded scenario_request _ _ _ _ _ _ w
                Hreads Hin Hc Hs) as H.
  cbv zeta in H.
  change (submission_call (py "cHJpbnQoMSk=") (PInt 71) (py ""))
    with scenario_call in H.
  split; [reflexivity | split; [reflexivity | split]].
  - rewrite H. destruct (remote scenario_call) as [t | r]; [reflexivity |].
    destruct (http_error_status r); [reflexivity |].
    destruct (json_body r) as [[| | | | | |] |]; reflexivity.
  - intros r body token Hr Hok Hbody Htoken.
    rewrite H, Hr, Hok, Hbody. unfold find_or. rewrite Htoken. reflexivity.
Qed.

(** C2: when the remote engine answers a poll with status code 1 (in
    queue) or 2 (processing), [get_status] returns exactly
    [{status: {description: "Pending"}}] with HTTP 200. *)
Theorem get_status_pending token w r result status id :
  token <> [] ->
  remote (status_call token) = inr r ->
  http_error_status r = false ->
  json_body r = Some (PDict result) ->
  lookup (py "status") result = Some (PDict status) ->
  lookup (py "id") status = Some (PInt id) ->
  id = 1 \/ id = 2 ->
  get_status py_repr remote token w
  = (Returns (PDict [(py "status",
                      PDict [(py "description", PStr (py "Pending"))])],
              200),
     record_call (status_call token) w).
Proof.
  intros Ht Hr Hok Hjson Hstatus Hid Hcode.
  refine (proj1 (get_status_answered token w r result Ht Hr Hok Hjson
                   status _) _).
  - unfold find_or. rewrite Hstatus. reflexivity.
  - unfold find_or. rewrite Hid.
    destruct Hcode as [-> | ->]; reflexivity.
Qed.

(** C3, as the code has it: for every request whose language value is
    hashable (a string, a number, a boolean or null) and is not a key of
    the language table, [submit_code] returns HTTP 400 with an error
    message that names the value, and makes no outbound call. *)
Theorem submit_unsupported_language request data language_name w :
  get_json request = Returns (PDict data) ->
  lookup (py "language") data = Some language_name ->
  hashable language_name = true ->
  ~ is_language_key language_name ->
  submit_code py_repr remote request w
  = (Returns (error_body (py "Unsupported language: "
                          ++ py_str py_repr language_name), 400), w).
Proof.
  intros Hjson Hlang Hh Hk.
  apply (submit_code_unsupported request data); try assumption.
  - intros ->. discriminate Hlang.
  - unfold find_or. rewrite Hlang. reflexivity.
Qed.

(** C4, as the code has it: in every terminal poll result, each of
    [stdout], [stderr] and [compile_output] is the empty string when the
    field is absent (or null); when the field is a string that is not
    decodable base64, it is that string, unchanged. *)
Theorem get_status_text_fields token w r result status field :
  token <> [] ->
  remote (status_call token) = inr r ->
  http_error_status r = false ->
  json_body r = Some (PDict result) ->
  find_or (py "status") result (PDict []) = PDict status ->
  py_in (find_or (py "id") status PNone) [1; 2] = false ->
  In field text_fields ->
  exists final,
    fst (get_status py_repr remote token w) = Returns (PDict final, 200)
    /\ (find_or field result PNone = PNone ->
        lookup field final = Some (PStr (py "")))
    /\ (forall s e,
          find_or field result PNone = PStr s ->
          b64decode (PStr s) = Raises e ->
          lookup field final = Some (PStr s)).
Proof.
  intros Ht Hr Hok Hjson Hstatus Hid Hfield.
  destruct (proj2 (get_status_answered token w r result Ht Hr Hok Hjson
                     status Hstatus) Hid)
    as (stdout & stderr & compile_output & Hout & Herr & Hcomp & Hrun).
  eexists. split; [rewrite Hrun; reflexivity |].
  assert (Hnone : forall v x,
            decode_base64_output py_repr v = Returns x ->
            v = PNone -> x = py "").
  { intros v x Hv ->. injection Hv as <-. reflexivity. }
  assert (Hraw : forall v x s e,
            decode_base64_output py_repr v = Returns x ->
            v = PStr s -> b64decode (PStr s) = Raises e -> x = s).
  { intros v x s e Hv -> He.
    rewrite (decode_base64_output_undecodable s e He) in Hv. congruence. }
  unfold text_fields in Hfield. cbn [In] in Hfield.
  destruct Hfield as [<- | [<- | [<- | []]]].
  - split.
    + intros Hn. rewrite (Hnone _ _ Hout Hn). reflexivity.
    + intros s e Hs He. rewrite (Hraw _ _ s e Hout Hs He). reflexivity.
  - split.
    + intros Hn. rewrite (Hnone _ _ Herr Hn). reflexivity.
    + intros s e Hs He. rewrite (Hraw _ _ s e Herr Hs He). reflexivity.
  - split.
    + intros Hn. rewrite (Hnone _ _ Hcomp Hn). reflexivity.
    + intros s e Hs He. rewrite (Hraw _ _ s e Hcomp Hs He). reflexivity.
Qed.


(** C6: round trip: every text that has a UTF-8 encoding, encoded to
    base64 the way [submit_code] encodes [code] and [stdin] and then
    decoded with [decode_base64_output], comes back unchanged. *)
Theorem base64_round_trip s :
  utf8_text s ->
  exists encoded,
    b64_of_text (PStr s) = Returns encoded
    /\ decode_base64_output py_repr (PStr encoded) = Returns s.
Proof.
  intros Hs. destruct (b64_of_text_utf8 s Hs) as (b & _ & Hb & Hdec & Henc).
  exists (Base64.b64encode b). split; [exact Henc |].
  apply decode_base64_output_b64; [exact Hb | apply Hdec].
Qed.

(** C7, as the code has it: when the remote engine answers the outbound
    call with an HTTP error status (4xx or 5xx), [submit_code] returns HTTP
    502 carrying the raw text of that answer; when the transport fails and
    no answer arrives, it returns the generic HTTP 500. *)
Theorem submit_remote_failure request code name stdin id w :
  reads request (PStr code) (PStr name) (PStr stdin) ->
  In (name, id) LANGUAGE_MAP ->
  utf8_text code -> utf8_text stdin ->
  exists call,
    outbound (snd (submit_code py_repr remote request w))
    = outbound w ++ [call]
    /\ (forall r,
          remote call = inr r -> http_error_status r = true ->
          fst (submit_code py_repr remote request w)
          = Returns (error_body_details
                       (py "Failed to submit code to compiler service.")
                       (text r), 502))
    /\ (forall t,
          remote call = inl t ->
          fst (submit_code py_repr remote request w)
          = Returns (error_body (py "An unexpected server error occurred."),
                     500)).
Proof.
  intros Hreads Hin Hcode Hstdin.
  destruct (b64_of_text_utf8 code Hcode) as (bc & _ & _ & _ & Hec).
  destruct (b64_of_text_utf8 stdin Hstdin) as (bs & _ & _ & _ & Hes).
  pose proof (submit_code_forwarded request _ _ _ _ _ _ w
                Hreads Hin Hec Hes) as H.
  cbv zeta in H. eexists. split; [| split].
  - rewrite H.
    destruct (remote _) as [t | r]; [reflexivity |].
    destruct (http_error_status r); [reflexivity |].
    destruct (json_body r) as [[| | | | | |] |]; reflexivity.
  - intros r Hr Herr. rewrite H, Hr, Herr. reflexivity.
  - intros t Ht. rewrite H, Ht. reflexivity.
Qed.

(** C8: when the remote engine answers a poll with HTTP 404,
    [get_status] returns HTTP 404 with the error
    ["Invalid or expired token."]. *)
Theorem get_status_not_found token w r :
  token <> [] ->
  remote (status_call token) = inr r ->
  status_code r = 404 ->
  get_status py_repr remote token w
  = (Returns (error_body (py "Invalid or expired token."), 404),
     record_call (status_call token) w).
Proof.
  intros Ht Hr H404. unfold get_status. rewrite (truthy_token token Ht).
  cbn [negb]. unfold try_except, bind, requests_get, send.
  fold (status_call token). rewrite Hr.
  unfold raise_for_status, http_error_status. rewrite H404.
  cbn. rewrite H404. reflexivity.
Qed.

(** C9: [get_status] on the empty token returns HTTP 400 with a
    missing-token error, and makes no outbound call: the calls recorded
    after the handler are those recorded before it. *)
Theorem get_status_missing_token w :
  fst (get_status py_repr remote [] w)
  = Returns (error_body (py "Token is required"), 400)
  /\ outbound (snd (get_status py_repr remote [] w)) = outbound w.
Proof.
  assert (H : get_status py_repr remote [] w
              = (Returns (error_body (py "Token is required"), 400), w)).
  { unfold get_status. cbn [truthy List.length Nat.eqb negb]. reflexivity. }
  rewrite H. split; reflexivity.
Qed.

(** C10, as the code has it: when the request body is a non-empty JSON
    object without a [language] field, [submit_code] takes the default name
    ["python"], which is not a key of the language table, and returns HTTP
    400 with the error ["Unsupported language: python"], without any
    outbound call. *)
Theorem submit_language_omitted request data w :
  get_json request = Returns (PDict data) ->
  data <> [] ->
  lookup (py "language") data = None ->
  (forall id, ~ In (py "python", id) LANGUAGE_MAP)
  /\ submit_code py_repr remote request w
     = (Returns (error_body (py "Unsupported language: python"), 400), w).
Proof.
  intros Hjson Hdata Hlang.
  assert (Hkey : forall id, ~ In (py "python", id) LANGUAGE_MAP).
  { apply lookup_None. reflexivity. }
  split; [exact Hkey |].
  change (py "Unsupported language: python")
    with (py "Unsupported language: " ++ py_str py_repr (PStr (py "python"))).
  apply (submit_code_unsupported request data); try assumption.
  - unfold find_or. rewrite Hlang. reflexivity.
  - reflexivity.
  - intros (name & id & [= <-] & Hin). exact (Hkey id Hin).
Qed.

End Properties.

(** ** The claims on sample runs *)

(** A check, by computation, that a text has a UTF-8 encoding. *)
Lemma utf8_text_check s :
  forallb (fun c => (0 <=? c) && (c <=? 0x10FFFF) && negb (is_surrogate c)) s
  = true ->
  utf8_text s.
Proof.
  intros H. apply Forall_forall. intros c Hc.
  rewrite forallb_forall in H. specialize (H c Hc).
  apply andb_true_iff in H. destruct H as [H Hs].
  apply andb_true_iff in H. destruct H as [Hlo Hhi].
  apply Z.leb_le in Hlo. apply Z.leb_le in Hhi.
  apply negb_true_iff in Hs. unfold is_codepoint. auto.
Qed.

Lemma submit_python3_scenario_run :
  fst (submit_code plain_repr (engine_answers accepted) scenario_request
         initial)
  = Returns (PDict [(py "token", PStr (py "d85cd024"))], 202).
Proof.
  apply (proj2 (proj2 (proj2
           (submit_python3_scenario plain_repr (engine_answers accepted)
              initial)))
           accepted [(py "token", PStr (py "d85cd024"))]);
    reflexivity.
Defined.

Lemma get_status_pending_run :
  get_status plain_repr (engine_answers in_queue) (py "d85cd024") initial
  = (Returns (PDict [(py "status",
                      PDict [(py "description", PStr (py "Pending"))])],
              200),
     record_call (status_call (py "d85cd024")) initial).
Proof.
  apply (get_status_pending plain_repr (engine_answers in_queue)
           (py "d85cd024") initial in_queue
           [(py "status",
             PDict [(py "id", PInt 1);
                    (py "description", PStr (py "In Queue"))])]
           [(py "id", PInt 1); (py "description", PStr (py "In Queue"))] 1);
    try reflexivity; [discriminate | left; reflexivity].
Defined.

Lemma submit_unsupported_language_run :
  submit_code plain_repr engine_unreachable cobol_request initial
  = (Returns (error_body (py "Unsupported language: COBOL"), 400), initial).
Proof.
  apply (submit_unsupported_language plain_repr engine_unreachable
           cobol_request [(py "language", PStr (py "COBOL"))]
           (PStr (py "COBOL")) initial); try reflexivity.
  intros (name & id & Hname & Hin). injection Hname as <-.
  exact (lookup_None (py "COBOL") LANGUAGE_MAP eq_refl id Hin).
Defined.

(** A request whose language is a JSON array: the lookup in the table
    raises [TypeError], and the handler answers 500, not 400. *)
Lemma submit_unhashable_language :
  lookup (py "language") [(py "language", PList [])] = Some (PList [])
  /\ submit_code plain_repr engine_unreachable
       {| get_json := Returns (PDict [(py "language", PList [])]) |} initial
     = (Returns (error_body (py "An unexpected server error occurred."), 500),
        record_log (LogException (py "Internal Server Error: ") TypeError)
          initial).
Proof. split; reflexivity. Qed.

Lemma get_status_text_fields_run :
  exists final,
    fst (get_status plain_repr (engine_answers finished) (py "d85cd024")
           initial)
    = Returns (PDict final, 200)
    /\ (find_or (py "stdout") finished_result PNone = PNone ->
        lookup (py "stdout") final = Some (PStr (py "")))
    /\ (forall s e,
          find_or (py "stdout") finished_result PNone = PStr s ->
          b64decode (PStr s) = Raises e ->
          lookup (py "stdout") final = Some (PStr s)).
Proof.
  apply (get_status_text_fields plain_repr (engine_answers finished)
           (py "d85cd024") initial finished finished_result
           [(py "id", PInt 3); (py "description", PStr (py "Accepted"))]
           (py "stdout"));
    try reflexivity; [discriminate | left; reflexivity].
Defined.

(** On that answer the result carries ["abc"] as [stdout], not the empty
    string, although ["abc"] is not decodable. *)
Lemma get_status_keeps_undecodable_text :
  b64decode (PStr (py "abc")) = Raises BinasciiError
  /\ fst (get_status plain_repr (engine_answers finished) (py "d85cd024")
            initial)
     = Returns (PDict [ (py "status", PStr (py "Accepted"));
                        (py "stdout", PStr (py "abc"));
                        (py "stderr", PStr (py ""));
                        (py "compile_output", PStr (py ""));
                        (py "time", PStr (py "0.002"));
                        (py "memory", PInt 3264) ], 200).
Proof. split; reflexivity. Qed.



Lemma base64_round_trip_run :
  exists encoded,
    b64_of_text (PStr [0x20AC; 0x1F600; 0xE9; 65]) = Returns encoded
    /\ decode_base64_output plain_repr (PStr encoded)
       = Returns [0x20AC; 0x1F600; 0xE9; 65].
Proof.
  apply (base64_round_trip plain_repr [0x20AC; 0x1F600; 0xE9; 65]).
  apply utf8_text_check. reflexivity.
Defined.

Lemma submit_remote_failure_run :
  exists call,
    outbound (snd (submit_code plain_repr (engine_answers overloaded)
                     scenario_request initial))
    = outbound initial ++ [call]
    /\ (forall r,
          engine_answers overloaded call = inr r ->
          http_error_status r = true ->
          fst (submit_code plain_repr (engine_answers overloaded)
                 scenario_request initial)
          = Returns (error_body_details
                       (py "Failed to submit code to compiler service.")
                       (text r), 502))
    /\ (forall t,
          engine_answers overloaded call = inl t ->
          fst (submit_code plain_repr (engine_answers overloaded)
                 scenario_request initial)
          = Returns (error_body (py "An unexpected server error occurred."),
                     500)).
Proof.
  apply (submit_remote_failure plain_repr (engine_answers overloaded)
           scenario_request (py "print(1)") (py "Python 3") (py "")
           (PInt 71) initial).
  - exists [ (py "code", PStr (py "print(1)"));
             (py "language", PStr (py "Python 3"));
             (py "stdin", PStr (py "")) ].
    split; [reflexivity |]. split; [discriminate |].
    repeat split; reflexivity.
  - left; reflexivity.
  - apply utf8_text_check. reflexivity.
  - apply utf8_text_check. reflexivity.
Defined.

(** No answer arrives: the call was made, and the handler answers with the
    generic 500, not with 502. *)
Lemma submit_transport_failure :
  submit_code plain_repr engine_unreachable scenario_request initial
  = (Returns (error_body (py "An unexpected server error occurred."), 500),
     record_log
       (LogException (py "Internal Server Error: ")
          (Transport ConnectionError))
       (record_call scenario_call initial)).
Proof. reflexivity. Qed.

Lemma get_status_not_found_run :
  get_status plain_repr (engine_answers not_found) (py "d85cd024") initial
  = (Returns (error_body (py "Invalid or expired token."), 404),
     record_call (status_call (py "d85cd024")) initial).
Proof.
  apply (get_status_not_found plain_repr (engine_answers not_found)
           (py "d85cd024") initial not_found);
    [discriminate | reflexivity | reflexivity].
Defined.

Lemma submit_language_omitted_run :
  (forall id, ~ In (py "python", id) LANGUAGE_MAP)
  /\ submit_code plain_repr engine_unreachable code_only_request initial
     = (Returns (error_body (py "Unsupported language: python"), 400),
        initial).
Proof.
  apply (submit_language_omitted plain_repr engine_unreachable
           code_only_request [(py "code", PStr (py "print(1)"))] initial);
    [reflexivity | discriminate | reflexivity].
Defined.

(** The empty JSON object has no [language] field either, and it is
    refused as an invalid payload. *)
Lemma submit_empty_object :
  lookup (py "language") [] = None
  /\ submit_code plain_repr engine_unreachable
       {| get_json := Returns (PDict []) |} initial
     = (Returns (error_body (py "Invalid JSON payload"), 400), initial).
Proof. split; reflexivity. Qed.

(** ** The runtime model on known values *)

Example b64encode_print :
  Base64.b64encode (py "print(1)") = py "cHJpbnQoMSk=".
Proof. reflexivity. Qed.

Example b64decode_one_pad_short :
  b64decode (PStr (py "YQ=")) = Raises BinasciiError.
Proof. reflexivity. Qed.

Example b64decode_stops_at_padding :
  b64decode (PStr (py "YWI=YWJj")) = Returns (py "ab").
Proof. reflexivity. Qed.

Example b64decode_skips_other_characters :
  b64decode (PStr (py "Y!W J-j")) = Returns (py "abc").
Proof. reflexivity. Qed.

Example b64decode_not_ascii :
  b64decode (PStr [0xE9]) = Raises ValueError.
Proof. reflexivity. Qed.

Example utf8_decode_ignore_drops :
  Utf8.decode Utf8.Ignore [0xE2; 0x82; 65; 0xC0; 0x80; 0xF0; 0x9F]
  = Some [65]
  /\ Utf8.decode Utf8.Strict [0xE2; 0x82; 65; 0xC0; 0x80; 0xF0; 0x9F]
     = None.
Proof. split; reflexivity. Qed.

Example utf8_encode_surrogate : Utf8.encode [0xD800] = None.
Proof. reflexivity. Qed.

(** Base64 of the single octet [0xFF], which is not UTF-8. *)
Example decode_base64_output_not_utf8 :
  decode_base64_output plain_repr (PStr (py "/w==")) = Returns (py "").
Proof. reflexivity. Qed.

Example decode_base64_output_number :
  decode_base64_output plain_repr (PInt (-12)) = Returns (py "-12").
Proof. reflexivity. Qed.

Example py_in_numbers :
  py_in (PInt 2) [1; 2] = true
  /\ py_in (PBool true) [1; 2] = true
  /\ py_in (PFloat 0x4000000000000000) [1; 2] = true
  /\ py_in (PFloat 0x3FF8000000000000) [1; 2] = false
  /\ py_in (PStr (py "1")) [1; 2] = false
  /\ py_in (PInt 3) [1; 2] = false.
Proof. repeat split; reflexivity. Qed.

(** * Every path of the handlers *)

(** ** What the encoders and decoders raise *)

Lemma utf8_encode_surrogate_fails s :
  Exists (fun c => is_surrogate c = true) s -> Utf8.encode s = None.
Proof.
  induction 1 as [c s Hc | c s _ IH]; cbn [Utf8.encode].
  - assert (Hchar : Utf8.encode_char c = None).
    { unfold Utf8.encode_char. rewrite Hc. unfold is_surrogate in Hc.
      apply andb_true_iff in Hc. destruct Hc as [Hlo Hhi].
      apply Z.leb_le in Hlo. apply Z.leb_le in Hhi. ztest. reflexivity. }
    rewrite Hchar. reflexivity.
  - rewrite IH. destruct (Utf8.encode_char c); reflexivity.
Qed.

Lemma utf8_encode_fails_surrogate s :
  Utf8.encode s = None -> Exists (fun c => is_surrogate c = true) s.
Proof.
  induction s as [| c s IH]; cbn [Utf8.encode]; [discriminate |].
  destruct (Utf8.encode_char c) as [b |] eqn:Hc.
  - destruct (Utf8.encode s); [discriminate |].
    intros _. apply Exists_cons_tl. apply IH. reflexivity.
  - intros _. apply Exists_cons_hd. unfold Utf8.encode_char in Hc.
    destruct (c <? 0x80); [discriminate |].
    destruct (c <? 0x800); [discriminate |].
    destruct (c <? 0x10000); [| discriminate].
    destruct (is_surrogate c); [reflexivity | discriminate].
Qed.

(** [b64_of_text] raises on what is not encodable, and on nothing else. *)
Lemma b64_of_text_raises v :
  not_encodable v ->
  exists e, b64_of_text v = Raises e
            /\ (e = AttributeError \/ e = UnicodeEncodeError).
Proof.
  intros Hv. destruct v; try (exists AttributeError; split; auto; fail).
  exists UnicodeEncodeError. split; [| auto].
  unfold b64_of_text, py_encode.
  rewrite (utf8_encode_surrogate_fails s (Hv s eq_refl)). reflexivity.
Qed.

Lemma b64_of_text_raised v e :
  b64_of_text v = Raises e ->
  not_encodable v /\ (e = AttributeError \/ e = UnicodeEncodeError).
Proof.
  unfold b64_of_text, py_encode, not_encodable. intros H.
  destruct v; try (inversion H; subst; split; [intros ? [=] | auto]; fail).
  destruct (Utf8.encode s) as [b |] eqn:Hb.
  - cbn [obind] in H. unfold bytes_decode in H.
    rewrite utf8_decode_ascii in H by apply b64encode_ascii. discriminate.
  - inversion H; subst. split; [| auto].
    intros s' [= <-]. apply utf8_encode_fails_surrogate. exact Hb.
Qed.

Section Coverage.

Variable py_repr : value -> pystr.
Variable remote : outbound_call -> transport_error + response.

(** ** [submit_code], path by path *)

Lemma submit_code_get_json_raises request e w :
  get_json request = Raises e ->
  (forall r, e <> HTTPError r) ->
  submit_code py_repr remote request w
  = (Returns (submit_failed, 500),
     record_log (LogException (py "Internal Server Error: ") e) w).
Proof.
  intros Hjson He. unfold submit_code, try_except, bind, lift.
  rewrite Hjson. destruct e; try reflexivity.
  exfalso. exact (He r eq_refl).
Qed.

Lemma submit_code_get_json_raises_http request r w :
  get_json request = Raises (HTTPError r) ->
  submit_code py_repr remote request w
  = (Returns (submit_refused r, 502),
     record_log (LogError (py "Judge0 API Error: " ++ text r)) w).
Proof.
  intros Hjson. unfold submit_code, try_except, bind, lift.
  rewrite Hjson. reflexivity.
Qed.

Lemma submit_code_falsy request data w :
  get_json request = Returns data -> truthy data = false ->
  submit_code py_repr remote request w
  = (Returns (invalid_payload, 400), w).
Proof.
  intros Hjson Hdata. unfold submit_code, try_except, bind, lift.
  rewrite Hjson, Hdata. reflexivity.
Qed.

Lemma submit_code_not_object request data w :
  get_json request = Returns data ->
  truthy data = true -> is_dict data = false ->
  submit_code py_repr remote request w
  = (Returns (submit_failed, 500),
     record_log (LogException (py "Internal Server Error: ") AttributeError)
       w).
Proof.
  intros Hjson Hdata Hdict. unfold submit_code, try_except, bind, lift.
  rewrite Hjson, Hdata. destruct data; try discriminate Hdict; reflexivity.
Qed.

Lemma submit_code_unhashable request code language_name stdin w :
  reads request code language_name stdin ->
  hashable language_name = false ->
  submit_code py_repr remote request w
  = (Returns (submit_failed, 500),
     record_log (LogException (py "Internal Server Error: ") TypeError) w).
Proof.
  intros (data & Hjson & Hdata & Hcode & Hlang & Hstdin) Hh.
  unfold submit_code, try_except, bind, lift.
  rewrite Hjson, (truthy_dict data Hdata). cbn [negb].
  rewrite !py_get_dict, Hlang.
  destruct language_name; try discriminate Hh; reflexivity.
Qed.

Lemma submit_code_not_encodable request code name stdin id e w :
  reads request code (PStr name) stdin ->
  In (name, id) LANGUAGE_MAP ->
  b64_of_text code = Raises e
  \/ (exists ec, b64_of_text code = Returns ec)
     /\ b64_of_text stdin = Raises e ->
  submit_code py_repr remote request w
  = (Returns (submit_failed, 500),
     record_log (LogException (py "Internal Server Error: ") e) w).
Proof.
  intros (data & Hjson & Hdata & Hcode & Hlang & Hstdin) Hin Hfail.
  destruct (LANGUAGE_MAP_entry name id Hin) as [Hlook Htrue].
  assert (He : e = AttributeError \/ e = UnicodeEncodeError).
  { destruct Hfail as [H | [_ H]]; exact (proj2 (b64_of_text_raised _ _ H)). }
  unfold submit_code, try_except, bind, lift.
  rewrite Hjson, (truthy_dict data Hdata). cbn [negb].
  rewrite !py_get_dict, Hcode, Hlang, Hstdin, py_get_dict.
  unfold find_or. rewrite Hlook, Htrue. cbn [negb].
  destruct Hfail as [Hc | [[ec Hc] Hs]].
  - rewrite Hc. destruct He as [-> | ->]; reflexivity.
  - rewrite Hc, Hs. destruct He as [-> | ->]; reflexivity.
Qed.

(** Whatever the request and the engine, [submit_code] takes one of the
    paths of [submit_case]. *)
Lemma submit_code_case request w :
  submit_case py_repr remote request w
    (submit_code py_repr remote request w).
Proof.
  destruct (get_json request) as [data | e] eqn:Hjson.
  2:{ destruct e;
        try (rewrite (submit_code_get_json_raises request _ w Hjson)
               by (intros ?; discriminate);
             apply Submit_unreadable; [exact Hjson | intros ?; discriminate]).
      rewrite (submit_code_get_json_raises_http request r w Hjson).
      apply Submit_unreadable_http. exact Hjson. }
  destruct (truthy data) eqn:Hdata.
  2:{ rewrite (submit_code_falsy request data w Hjson Hdata).
      eapply Submit_falsy; eassumption. }
  destruct (is_dict data) eqn:Hdict.
  2:{ rewrite (submit_code_not_object request data w Hjson Hdata Hdict).
      eapply Submit_not_object; eassumption. }
  destruct data as [| | | | | | d]; try discriminate Hdict.
  assert (Hd : d <> []) by (intros ->; discriminate Hdata).
  set (code := find_or (py "code") d (PStr (py ""))).
  set (language_name := find_or (py "language") d (PStr (py "python"))).
  set (stdin := find_or (py "stdin") d (PStr (py ""))).
  assert (Hreads : reads request code language_name stdin).
  { exists d. repeat split; try assumption; reflexivity. }
  destruct (hashable language_name) eqn:Hh.
  2:{ rewrite (submit_code_unhashable request _ _ _ w Hreads Hh).
      eapply Submit_unhashable; eassumption. }
  assert (Hkey : is_language_key language_name
                 \/ ~ is_language_key language_name).
  { destruct language_name as [| | | | name | |];
      try (right; intros (? & ? & [=] & _); fail).
    destruct (lookup name LANGUAGE_MAP) as [id |] eqn:Hl.
    - left. exists name, id. split; [reflexivity | exact (lookup_In _ _ _ Hl)].
    - right. intros (n & id & [= <-] & Hin).
      exact (lookup_None _ _ Hl id Hin). }
  destruct Hkey as [(name & id & Hname & Hin) | Hkey].
  2:{ rewrite (submit_code_unsupported py_repr remote request d language_name
                 w Hjson Hd eq_refl Hh Hkey).
      eapply Submit_unsupported; eassumption. }
  rewrite Hname in Hreads.
  destruct (b64_of_text code) as [ec | e] eqn:Hec.
  2:{ rewrite (submit_code_not_encodable request code name stdin id e w
                 Hreads Hin (or_introl Hec)).
      eapply Submit_not_encodable; eauto. }
  destruct (b64_of_text stdin) as [es | e] eqn:Hes.
  2:{ assert (Hfail : b64_of_text code = Raises e
                      \/ (exists ec, b64_of_text code = Returns ec)
                         /\ b64_of_text stdin = Raises e)
        by (right; split; [exists ec; exact Hec | exact Hes]).
      rewrite (submit_code_not_encodable request code name stdin id e w
                 Hreads Hin Hfail).
      eapply Submit_not_encodable; eauto. }
  rewrite (submit_code_forwarded py_repr remote request code name stdin id
             ec es w Hreads Hin Hec Hes).
  cbv zeta.
  destruct (remote (submission_call ec id es)) as [t | r] eqn:Hr.
  { eapply Submit_unreachable; eassumption. }
  destruct (http_error_status r) eqn:Hok.
  { eapply Submit_refused; eassumption. }
  destruct (json_body r) as [v |] eqn:Hbody.
  2:{ eapply Submit_unusable; try eassumption. left. auto. }
  destruct v;
    try (eapply Submit_unusable; try eassumption;
         right; eexists; repeat split; [eassumption | reflexivity]).
  eapply Submit_accepted; eassumption.
Qed.

(** ** [get_status], path by path *)

Lemma get_status_unreachable token w t :
  token <> [] -> remote (status_call token) = inl t ->
  get_status py_repr remote token w
  = (Returns (poll_failed, 500),
     record_log (LogException (py "Internal Polling Error: ") (Transport t))
       (record_call (status_call token) w)).
Proof.
  intros Ht Hr. unfold get_status. rewrite (truthy_token token Ht). cbn [negb].
  unfold try_except, bind, requests_get, send.
  fold (status_call token). rewrite Hr. reflexivity.
Qed.

Lemma get_status_http_error token w r :
  token <> [] -> remote (status_call token) = inr r ->
  http_error_status r = true ->
  get_status py_repr remote token w
  = if status_code r =? 404 then
      (Returns (token_unknown, 404), record_call (status_call token) w)
    else
      (Returns (poll_refused r, 502),
       record_log (LogError (py "Judge0 Polling Error: " ++ text r))
         (record_call (status_call token) w)).
Proof.
  intros Ht Hr Herr. unfold get_status. rewrite (truthy_token token Ht). cbn [negb].
  unfold try_except, bind, requests_get, send, raise_for_status.
  fold (status_call token). rewrite Hr, Herr.
  cbn [raise dispatch except_HTTPError].
  destruct (status_code r =? 404); reflexivity.
Qed.

(** Status 404 is an error status. *)
Lemma http_error_status_404 r :
  status_code r = 404 -> http_error_status r = true.
Proof. intros H. unfold http_error_status. rewrite H. reflexivity. Qed.

Lemma get_status_unusable token w r e :
  token <> [] -> remote (status_call token) = inr r ->
  http_error_status r = false -> unusable_status r e ->
  get_status py_repr remote token w
  = (Returns (poll_failed, 500),
     record_log (LogException (py "Internal Polling Error: ") e)
       (record_call (status_call token) w)).
Proof.
  intros Ht Hr Hok Hbad. unfold get_status. rewrite (truthy_token token Ht). cbn [negb].
  unfold try_except, bind, requests_get, send, raise_for_status,
    response_json, lift, ret.
  fold (status_call token). rewrite Hr, Hok. cbv beta iota.
  destruct Hbad as [[[Hnone ->] | (v & Hv & Hdict & ->)]
                   | (result & Hresult & Hdict & ->)].
  - rewrite Hnone. reflexivity.
  - rewrite Hv. destruct v; try discriminate Hdict; reflexivity.
  - rewrite Hresult. cbv beta iota. rewrite py_get_dict. cbv beta iota.
    destruct (find_or (py "status") result (PDict []));
      try discriminate Hdict; reflexivity.
Qed.

(** Whatever the token and the engine, [get_status] takes one of the paths
    of [poll_case]. *)
Lemma get_status_case token w :
  poll_case py_repr remote w token (get_status py_repr remote token w).
Proof.
  destruct token as [| c token'] eqn:Htoken.
  { apply Poll_no_token. reflexivity. }
  rewrite <- Htoken.
  assert (Ht : token <> []) by (rewrite Htoken; discriminate).
  clear Htoken.
  destruct (remote (status_call token)) as [t | r] eqn:Hr.
  { rewrite (get_status_unreachable token w t Ht Hr).
    eapply Poll_unreachable; eassumption. }
  destruct (http_error_status r) eqn:Hok.
  { rewrite (get_status_http_error token w r Ht Hr Hok).
    destruct (Z.eqb_spec (status_code r) 404) as [H404 | H404].
    - eapply Poll_not_found; eassumption.
    - eapply Poll_refused; eassumption. }
  destruct (json_body r) as [v |] eqn:Hbody.
  2:{ rewrite (get_status_unusable token w r JSONDecodeError Ht Hr Hok)
        by (left; left; auto).
      eapply Poll_unusable; try eassumption. left; left; auto. }
  destruct (is_dict v) eqn:Hdict.
  2:{ assert (Hbad : unusable_status r AttributeError)
        by (left; right; exists v; auto).
      rewrite (get_status_unusable token w r AttributeError Ht Hr Hok Hbad).
      eapply Poll_unusable; eassumption. }
  destruct v as [| | | | | | result]; try discriminate Hdict.
  destruct (is_dict (find_or (py "status") result (PDict []))) eqn:Hsd.
  2:{ assert (Hbad : unusable_status r AttributeError)
        by (right; exists result; auto).
      rewrite (get_status_unusable token w r AttributeError Ht Hr Hok Hbad).
      eapply Poll_unusable; eassumption. }
  destruct (find_or (py "status") result (PDict []))
    as [| | | | | | status] eqn:Hstatus; try discriminate Hsd.
  destruct (get_status_answered py_repr remote token w r result Ht Hr Hok
              Hbody status Hstatus) as [Hpending Hfinished].
  destruct (py_in (find_or (py "id") status PNone) [1; 2]) eqn:Hid.
  - rewrite (Hpending eq_refl). eapply Poll_pending; eassumption.
  - destruct (Hfinished eq_refl)
      as (stdout & stderr & compile_output & Hout & Herr & Hcomp & Hrun).
    rewrite Hrun. eapply Poll_finished; eassumption.
Qed.

(** ** What the codecs keep *)

(** Characters outside the alphabet and the padding do not count. *)
Lemma a2b_loop_skips s :
  forall q lc p,
    Base64.a2b_loop (filter significant s) q lc p = Base64.a2b_loop s q lc p.
Proof.
  induction s as [| c s IH]; intros q lc p; [reflexivity |].
  cbn [filter]. unfold significant at 1.
  destruct (c =? Base64.BASE64_PAD) eqn:Hpad; cbn [orb].
  - cbn [Base64.a2b_loop]. rewrite Hpad.
    destruct (2 <=? q); [destruct (4 <=? q + (p + 1)) |];
      try reflexivity; apply IH.
  - destruct (Base64.table_a2b_base64 c <? 64) eqn:Hdata.
    + cbn [Base64.a2b_loop]. rewrite Hpad. cbv zeta.
      destruct (64 <=? Base64.table_a2b_base64 c); [apply IH |].
      destruct (q =? 0); [apply IH |].
      destruct (q =? 1); [rewrite IH; reflexivity |].
      destruct (q =? 2); rewrite IH; reflexivity.
    + cbn [Base64.a2b_loop]. rewrite Hpad. cbv zeta.
      replace (64 <=? Base64.table_a2b_base64 c) with true
        by (symmetry; apply Z.leb_le; apply Z.ltb_ge in Hdata; lia).
      apply IH.
Qed.

(** The decoder writes octets. *)
Lemma a2b_loop_bytes s :
  forall q lc p b, Base64.a2b_loop s q lc p = Some b -> Forall is_byte b.
Proof.
  assert (Hland : forall x, is_byte (Z.land x 0xFF)).
  { intros x. unfold is_byte. change 0xFF with (Z.ones 8).
    rewrite Z.land_ones by lia. apply Z.mod_pos_bound. lia. }
  assert (Hcons : forall x o b,
            (forall b', o = Some b' -> Forall is_byte b') ->
            option_map (cons (Z.land x 0xFF)) o = Some b -> Forall is_byte b).
  { intros x o b Ho H. destruct o as [b' |]; [| discriminate].
    injection H as <-. constructor; [apply Hland | apply Ho; reflexivity]. }
  induction s as [| c s IH]; intros q lc p b; cbn [Base64.a2b_loop].
  - destruct (q =? 0); [intros [= <-]; constructor | discriminate].
  - cbv zeta.
    destruct (c =? Base64.BASE64_PAD).
    { destruct (2 <=? q); [destruct (4 <=? q + (p + 1)) |];
        try apply IH. intros [= <-]. constructor. }
    destruct (64 <=? Base64.table_a2b_base64 c); [apply IH |].
    destruct (q =? 0); [apply IH |].
    destruct (q =? 1); [apply Hcons; intros ?; apply IH |].
    destruct (q =? 2); apply Hcons; intros ?; apply IH.
Qed.

Ltac bounds :=
  repeat match goal with
  | H : (_ <? _) = true |- _ => apply Z.ltb_lt in H
  | H : (_ <? _) = false |- _ => apply Z.ltb_ge in H
  | H : (_ <=? _) = true |- _ => apply Z.leb_le in H
  | H : (_ <=? _) = false |- _ => apply Z.leb_gt in H
  | H : (_ =? _) = true |- _ => apply Z.eqb_eq in H
  | H : (_ =? _) = false |- _ => apply Z.eqb_neq in H
  | H : negb _ = false |- _ => apply negb_false_iff in H
  | H : negb _ = true |- _ => apply negb_true_iff in H
  | H : _ || _ = false |- _ => apply orb_false_iff in H; destruct H
  | H : _ && _ = true |- _ => apply andb_true_iff in H; destruct H
  | H : is_byte _ |- _ => unfold is_byte in H
  end.

(** A code point the decoder accepts is no surrogate and is in range. *)
Lemma scalar_value c :
  (0 <= c < 0xD800 \/ 0xDFFF < c <= 0x10FFFF) ->
  is_codepoint c /\ is_surrogate c = false.
Proof.
  intros H. unfold is_codepoint, is_surrogate. split; [lia |].
  apply andb_false_iff.
  destruct H; [left; apply Z.leb_gt | right; apply Z.leb_gt]; lia.
Qed.

(** Under [errors='ignore'] the decoder returns well-formed text only. *)
Lemma utf8_decode_ignore_text (n : nat) :
  forall s t,
    (List.length s <= n)%nat -> Forall is_byte s ->
    Utf8.decode Utf8.Ignore s = Some t -> utf8_text t.
Proof.
  induction n as [| n IH]; intros s t Hn Hs.
  - destruct s; [intros [= <-]; constructor | cbn in Hn; lia].
  - assert (Hmap : forall c r,
              (List.length r <= n)%nat -> Forall is_byte r ->
              (0 <= c < 0xD800 \/ 0xDFFF < c <= 0x10FFFF) ->
              option_map (cons c) (Utf8.decode Utf8.Ignore r) = Some t ->
              utf8_text t).
    { intros c r Hr Hb Hc H.
      destruct (Utf8.decode Utf8.Ignore r) as [t' |] eqn:Ht'; [| discriminate].
      injection H as <-. constructor; [apply scalar_value; exact Hc |].
      exact (IH r t' Hr Hb Ht'). }
    destruct s as [| ch s1]; [intros [= <-]; constructor |].
    cbn [List.length] in Hn. inversion Hs as [| ? ? Hch Hs1]; subst.
    cbn [Utf8.decode Utf8.on_error]. unfold Utf8.is_continuation.
    destruct (ch <? 0x80) eqn:H80.
    { apply Hmap; [lia | exact Hs1 | bounds; lia]. }
    destruct (ch <? 0xE0) eqn:HE0.
    { destruct (ch <? 0xC2) eqn:HC2; [apply IH; [lia | exact Hs1] |].
      destruct s1 as [| ch2 s2]; [intros [= <-]; constructor |].
      inversion Hs1 as [| ? ? Hch2 Hs2]; subst. cbn [List.length] in Hn.
      destruct (negb ((0x80 <=? ch2) && (ch2 <? 0xC0))) eqn:Hc2;
        [apply IH; [cbn [List.length]; lia | exact Hs1] |].
      apply Hmap; [lia | exact Hs2 |].
      rewrite !Z.shiftl_mul_pow2 by lia. bounds. lia. }
    destruct (ch <? 0xF0) eqn:HF0.
    { destruct s1 as [| ch2 s2]; [intros [= <-]; constructor |].
      inversion Hs1 as [| ? ? Hch2 Hs2]; subst. cbn [List.length] in Hn.
      destruct (negb ((0x80 <=? ch2) && (ch2 <? 0xC0))
                || (if ch2 <? 0xA0 then ch =? 0xE0 else ch =? 0xED)) eqn:Hc2;
        [apply IH; [cbn [List.length]; lia | exact Hs1] |].
      destruct s2 as [| ch3 s3]; [intros [= <-]; constructor |].
      inversion Hs2 as [| ? ? Hch3 Hs3]; subst. cbn [List.length] in Hn.
      destruct (negb ((0x80 <=? ch3) && (ch3 <? 0xC0))) eqn:Hc3;
        [apply IH; [cbn [List.length]; lia | exact Hs2] |].
      apply Hmap; [lia | exact Hs3 |].
      rewrite !Z.shiftl_mul_pow2 by lia.
      destruct (ch2 <? 0xA0) eqn:HA0; bounds; lia. }
    destruct (ch <? 0xF5) eqn:HF5; [| apply IH; [lia | exact Hs1]].
    destruct s1 as [| ch2 s2]; [intros [= <-]; constructor |].
    inversion Hs1 as [| ? ? Hch2 Hs2]; subst. cbn [List.length] in Hn.
    destruct (negb ((0x80 <=? ch2) && (ch2 <? 0xC0))
              || (if ch2 <? 0x90 then ch =? 0xF0 else ch =? 0xF4)) eqn:Hc2;
      [apply IH; [cbn [List.length]; lia | exact Hs1] |].
    destruct s2 as [| ch3 s3]; [intros [= <-]; constructor |].
    inversion Hs2 as [| ? ? Hch3 Hs3]; subst. cbn [List.length] in Hn.
    destruct (negb ((0x80 <=? ch3) && (ch3 <? 0xC0))) eqn:Hc3;
      [apply IH; [cbn [List.length]; lia | exact Hs2] |].
    destruct s3 as [| ch4 s4]; [intros [= <-]; constructor |].
    inversion Hs3 as [| ? ? Hch4 Hs4]; subst. cbn [List.length] in Hn.
    destruct (negb ((0x80 <=? ch4) && (ch4 <? 0xC0))) eqn:Hc4;
      [apply IH; [cbn [List.length]; lia | exact Hs3] |].
    apply Hmap; [lia | exact Hs4 |].
    rewrite !Z.shiftl_mul_pow2 by lia.
    destruct (ch2 <? 0x90) eqn:H90; bounds; lia.
Qed.

(** ** More of [submit_code] *)

(** X1: [submit_code] never raises: whatever the request and whatever the
    engine does, it answers, with status 202, 400, 500 or 502. *)
Theorem submit_code_always_answers request w :
  exists body code,
    fst (submit_code py_repr remote request w) = Returns (body, code)
    /\ In code [202; 400; 500; 502].
Proof.
  destruct (submit_code_case request w);
    eexists; eexists; (split; [reflexivity | cbn; auto]).
Qed.

(** X2: [submit_code] sends nothing, or one call: a POST to the submissions
    URL whose payload holds the base64 forms of the code and the input it
    read, the identifier the language table gives for the language it
    read, and the limits 5 and 256000, whatever else the request holds. *)
Theorem submit_code_sends_at_most_once request w :
  outbound (snd (submit_code py_repr remote request w)) = outbound w
  \/ exists code name stdin id ec es payload,
       reads request code (PStr name) stdin
       /\ In (name, id) LANGUAGE_MAP
       /\ b64_of_text code = Returns ec
       /\ b64_of_text stdin = Returns es
       /\ outbound (snd (submit_code py_repr remote request w))
          = outbound w ++ [submission_call ec id es]
       /\ call_method (submission_call ec id es) = POST
       /\ call_url (submission_call ec id es) = submit_url
       /\ call_json (submission_call ec id es) = Some (PDict payload)
       /\ lookup (py "source_code") payload = Some (PStr ec)
       /\ lookup (py "stdin") payload = Some (PStr es)
       /\ lookup (py "language_id") payload = Some id
       /\ lookup (py "cpu_time_limit") payload = Some (PInt 5)
       /\ lookup (py "memory_limit") payload = Some (PInt 256000).
Proof.
  destruct (submit_code_case request w);
    try (left; reflexivity);
    right; exists code, name, stdin, id, ec, es; eexists;
    repeat (split; [first [eassumption | reflexivity] |]); reflexivity.
Qed.

(** X3: for every language of the table and every code and input that are
    texts, [submit_code] sends one call; it carries the identifier of the
    language, and [decode_base64_output] reads the code and the input back
    from its [source_code] and [stdin]. *)
Theorem submit_code_forwards_faithfully request code name stdin id w :
  reads request (PStr code) (PStr name) (PStr stdin) ->
  In (name, id) LANGUAGE_MAP ->
  utf8_text code -> utf8_text stdin ->
  exists ec es,
    outbound (snd (submit_code py_repr remote request w))
    = outbound w ++ [submission_call ec id es]
    /\ decode_base64_output py_repr (PStr ec) = Returns code
    /\ decode_base64_output py_repr (PStr es) = Returns stdin.
Proof.
  intros Hreads Hin Hcode Hstdin.
  destruct (b64_of_text_utf8 code Hcode) as (bc & _ & Hbc & Hdc & Hec).
  destruct (b64_of_text_utf8 stdin Hstdin) as (bs & _ & Hbs & Hds & Hes).
  exists (Base64.b64encode bc), (Base64.b64encode bs).
  split; [| split].
  - rewrite (submit_code_forwarded py_repr remote request _ _ _ _ _ _ w
               Hreads Hin Hec Hes).
    cbv zeta. destruct (remote _) as [t | r]; [reflexivity |].
    destruct (http_error_status r); [reflexivity |].
    destruct (json_body r) as [[| | | | | |] |]; reflexivity.
  - apply decode_base64_output_b64; [exact Hbc | apply Hdc].
  - apply decode_base64_output_b64; [exact Hbs | apply Hds].
Qed.

(** X4: a body that parses to a falsy value (null, false, 0, an empty
    string, array or object) is answered with 400 "Invalid JSON payload";
    nothing is sent and nothing is logged. *)
Theorem submit_code_falsy_body request data w :
  get_json request = Returns data ->
  truthy data = false ->
  submit_code py_repr remote request w
  = (Returns (error_body (py "Invalid JSON payload"), 400), w).
Proof. intros Hjson Hdata. exact (submit_code_falsy request data w Hjson Hdata). Qed.

(** X5: when [request.get_json()] raises, as it does on a body that is not
    JSON, [submit_code] answers with the generic 500, not with 400; nothing
    is sent, and the exception is logged. *)
Theorem submit_code_unreadable_body request e w :
  get_json request = Raises e ->
  flask_error e ->
  submit_code py_repr remote request w
  = (Returns (error_body (py "An unexpected server error occurred."), 500),
     record_log (LogException (py "Internal Server Error: ") e) w).
Proof.
  intros Hjson He. apply submit_code_get_json_raises; [exact Hjson |].
  intros r ->. destruct He; discriminate.
Qed.

(** X6: a body that parses to a truthy value other than an object (a
    number, a string, an array, true) is answered with the generic 500;
    nothing is sent. *)
Theorem submit_code_body_not_object request data w :
  get_json request = Returns data ->
  truthy data = true ->
  is_dict data = false ->
  submit_code py_repr remote request w
  = (Returns (error_body (py "An unexpected server error occurred."), 500),
     record_log (LogException (py "Internal Server Error: ") AttributeError)
       w).
Proof.
  intros Hjson Hdata Hdict.
  exact (submit_code_not_object request data w Hjson Hdata Hdict).
Qed.

(** X7: with a language of the table, a [code] or a [stdin] that is no
    string, or that holds a surrogate code point, is answered with the
    generic 500, and nothing is sent. *)
Theorem submit_code_text_required request code name stdin id w :
  reads request code (PStr name) stdin ->
  In (name, id) LANGUAGE_MAP ->
  not_encodable code \/ not_encodable stdin ->
  fst (submit_code py_repr remote request w)
  = Returns (error_body (py "An unexpected server error occurred."), 500)
  /\ outbound (snd (submit_code py_repr remote request w)) = outbound w.
Proof.
  intros Hreads Hin Hbad.
  assert (Hfail : exists e,
            b64_of_text code = Raises e
            \/ (exists ec, b64_of_text code = Returns ec)
               /\ b64_of_text stdin = Raises e).
  { destruct (b64_of_text code) as [ec | e] eqn:Hec.
    - destruct Hbad as [Hbad | Hbad].
      + destruct (b64_of_text_raises code Hbad) as (e & He & _). congruence.
      + destruct (b64_of_text_raises stdin Hbad) as (e & He & _).
        exists e. right. split; [exists ec; reflexivity | exact He].
    - exists e. left. reflexivity. }
  destruct Hfail as [e Hfail].
  rewrite (submit_code_not_encodable request code name stdin id e w
             Hreads Hin Hfail).
  split; reflexivity.
Qed.

(** X8: when the engine answers the call with a success status and a JSON
    object, [submit_code] returns 202 with the [token] of that object as it
    is, null when the object has none, and logs it. *)
Theorem submit_code_accepted request code name stdin id ec es r body w :
  reads request code (PStr name) stdin ->
  In (name, id) LANGUAGE_MAP ->
  b64_of_text code = Returns ec -> b64_of_text stdin = Returns es ->
  remote (submission_call ec id es) = inr r ->
  http_error_status r = false ->
  json_body r = Some (PDict body) ->
  submit_code py_repr remote request w
  = (Returns (PDict [(py "token", find_or (py "token") body PNone)], 202),
     record_log
       (LogInfo (py "Submission successful. Token: "
                 ++ py_str py_repr (find_or (py "token") body PNone)))
       (record_call (submission_call ec id es) w)).
Proof.
  intros Hreads Hin Hec Hes Hr Hok Hbody.
  rewrite (submit_code_forwarded py_repr remote request _ _ _ _ _ _ w
             Hreads Hin Hec Hes).
  cbv zeta. rewrite Hr, Hok, Hbody. reflexivity.
Qed.

(** X9: when the engine answers the call with a success status but with a
    body that is not JSON, or is JSON and no object, [submit_code] returns
    the generic 500 although the call was made. *)
Theorem submit_code_unusable_answer request code name stdin id ec es r e w :
  reads request code (PStr name) stdin ->
  In (name, id) LANGUAGE_MAP ->
  b64_of_text code = Returns ec -> b64_of_text stdin = Returns es ->
  remote (submission_call ec id es) = inr r ->
  http_error_status r = false ->
  unusable_answer r e ->
  submit_code py_repr remote request w
  = (Returns (error_body (py "An unexpected server error occurred."), 500),
     record_log (LogException (py "Internal Server Error: ") e)
       (record_call (submission_call ec id es) w)).
Proof.
  intros Hreads Hin Hec Hes Hr Hok Hbad.
  rewrite (submit_code_forwarded py_repr remote request _ _ _ _ _ _ w
             Hreads Hin Hec Hes).
  cbv zeta. rewrite Hr, Hok.
  destruct Hbad as [[Hnone ->] | (v & Hv & Hdict & ->)].
  - rewrite Hnone. reflexivity.
  - rewrite Hv. destruct v; try discriminate Hdict; reflexivity.
Qed.

(** X10: what the status of the answer tells: 202 only when one call was
    sent and the engine answered it with a success status and a JSON
    object, whose token is returned; 502 only when the engine answered
    with an error status, whose text is returned; 400 only when nothing
    was sent and nothing logged. *)
Theorem submit_code_status_meaning request w :
  (forall e, get_json request = Raises e -> flask_error e) ->
  forall body code,
    fst (submit_code py_repr remote request w) = Returns (body, code) ->
    (code = 202 ->
     exists call r answer,
       outbound (snd (submit_code py_repr remote request w))
       = outbound w ++ [call]
       /\ remote call = inr r /\ http_error_status r = false
       /\ json_body r = Some (PDict answer)
       /\ body = PDict [(py "token", find_or (py "token") answer PNone)])
    /\ (code = 502 ->
        exists call r,
          outbound (snd (submit_code py_repr remote request w))
          = outbound w ++ [call]
          /\ remote call = inr r /\ http_error_status r = true
          /\ body = error_body_details
                      (py "Failed to submit code to compiler service.")
                      (text r))
    /\ (code = 400 -> snd (submit_code py_repr remote request w) = w).
Proof.
  intros Hflask body code Hrun.
  destruct (submit_code_case request w) as
    [ e Hjson He | r Hjson | | | | | | | ? ? ? ? ? ? r | | ? ? ? ? ? ? r answer ];
    cbn [fst snd] in *; injection Hrun as <- <-;
    (split; [| split]); intros Hcode; try discriminate Hcode;
    try reflexivity.
  - destruct (Hflask _ Hjson); discriminate.
  - exists (submission_call ec id es), r. auto.
  - exists (submission_call ec id es), r, answer. auto 6.
Qed.

(** ** More of [get_status] *)

(** X11: [get_status] never raises: whatever the token and whatever the
    engine does, it answers, with status 200, 400, 404, 500 or 502. *)
Theorem get_status_always_answers token w :
  exists body code,
    fst (get_status py_repr remote token w) = Returns (body, code)
    /\ In code [200; 400; 404; 500; 502].
Proof.
  destruct (get_status_case token w);
    eexists; eexists; (split; [reflexivity | cbn; auto 6]).
Qed.

(** X12: on a token that is not empty, [get_status] sends exactly one
    call, whatever the engine does: a GET without body to the status URL,
    which holds the token as it came. *)
Theorem get_status_sends_once token w :
  token <> [] ->
  outbound (snd (get_status py_repr remote token w))
  = outbound w
    ++ [ {| call_method := GET;
            call_url :=
              py "https://ce.judge0.com/submissions/" ++ token
              ++ py "?base64_encoded=true&fields=stdout,stderr,compile_output,time,memory,status";
            call_json := None;
            call_headers := [] |} ].
Proof.
  intros Ht.
  destruct (get_status_case token w); try contradiction; reflexivity.
Qed.

(** X13: when the engine answers a poll with an error status other than
    404, [get_status] returns 502 with the text of that answer, and logs
    it. *)
Theorem get_status_remote_error token w r :
  token <> [] ->
  remote (status_call token) = inr r ->
  http_error_status r = true ->
  status_code r <> 404 ->
  get_status py_repr remote token w
  = (Returns (error_body_details
                (py "Failed to retrieve results from compiler service.")
                (text r), 502),
     record_log (LogError (py "Judge0 Polling Error: " ++ text r))
       (record_call (status_call token) w)).
Proof.
  intros Ht Hr Herr H404.
  rewrite (get_status_http_error token w r Ht Hr Herr).
  destruct (Z.eqb_spec (status_code r) 404); [contradiction | reflexivity].
Qed.

(** X14: when the transport fails and no answer to the poll arrives,
    [get_status] returns the generic 500, and logs the failure. *)
Theorem get_status_transport_failure token w t :
  token <> [] ->
  remote (status_call token) = inl t ->
  get_status py_repr remote token w
  = (Returns (error_body
                (py "An unexpected server error occurred during polling."),
              500),
     record_log (LogException (py "Internal Polling Error: ") (Transport t))
       (record_call (status_call token) w)).
Proof. intros Ht Hr. exact (get_status_unreachable token w t Ht Hr). Qed.

(** X15: when the engine answers a poll with a success status but with a
    body that is not JSON, or is no JSON object, or whose [status] is no
    object, [get_status] returns the generic 500. *)
Theorem get_status_unusable_answer token w r e :
  token <> [] ->
  remote (status_call token) = inr r ->
  http_error_status r = false ->
  unusable_status r e ->
  get_status py_repr remote token w
  = (Returns (error_body
                (py "An unexpected server error occurred during polling."),
              500),
     record_log (LogException (py "Internal Polling Error: ") e)
       (record_call (status_call token) w)).
Proof.
  intros Ht Hr Hok Hbad. exact (get_status_unusable token w r e Ht Hr Hok Hbad).
Qed.

(** X16: the result of a finished run has the six fields [status],
    [stdout], [stderr], [compile_output], [time] and [memory], each once
    and no other, whatever the order [jsonify] writes them in; [status] is
    the description the engine gave, ["Unknown Error"] when it gave none;
    [time] and [memory] are what the engine gave, unchanged, null when it
    gave none. *)
Theorem get_status_finished_fields token w r result status :
  token <> [] ->
  remote (status_call token) = inr r ->
  http_error_status r = false ->
  json_body r = Some (PDict result) ->
  find_or (py "status") result (PDict []) = PDict status ->
  py_in (find_or (py "id") status PNone) [1; 2] = false ->
  exists final,
    fst (get_status py_repr remote token w) = Returns (PDict final, 200)
    /\ Permutation (map fst final)
         [py "status"; py "stdout"; py "stderr"; py "compile_output";
          py "time"; py "memory"]
    /\ lookup (py "status") final
       = Some (find_or (py "description") status (PStr (py "Unknown Error")))
    /\ lookup (py "time") final = Some (find_or (py "time") result PNone)
    /\ lookup (py "memory") final = Some (find_or (py "memory") result PNone).
Proof.
  intros Ht Hr Hok Hjson Hstatus Hid.
  destruct (proj2 (get_status_answered py_repr remote token w r result
                     Ht Hr Hok Hjson status Hstatus) Hid)
    as (stdout & stderr & compile_output & _ & _ & _ & Hrun).
  eexists. split; [rewrite Hrun; reflexivity |].
  split; [apply Permutation_refl |]. repeat split; reflexivity.
Qed.

(** X17: text comes back through the two handlers: when a field
    [stdout], [stderr] or [compile_output] of a finished run is the base64
    form [submit_code] gives to a text, the result holds that text. *)
Theorem get_status_returns_encoded_text
  token w r result status field text encoded :
  token <> [] ->
  remote (status_call token) = inr r ->
  http_error_status r = false ->
  json_body r = Some (PDict result) ->
  find_or (py "status") result (PDict []) = PDict status ->
  py_in (find_or (py "id") status PNone) [1; 2] = false ->
  In field text_fields ->
  utf8_text text ->
  b64_of_text (PStr text) = Returns encoded ->
  lookup field result = Some (PStr encoded) ->
  exists final,
    fst (get_status py_repr remote token w) = Returns (PDict final, 200)
    /\ lookup field final = Some (PStr text).
Proof.
  intros Ht Hr Hok Hjson Hstatus Hid Hfield Htext Henc Hlook.
  destruct (proj2 (get_status_answered py_repr remote token w r result
                     Ht Hr Hok Hjson status Hstatus) Hid)
    as (stdout & stderr & compile_output & Hout & Herr & Hcomp & Hrun).
  assert (Hback : decode_base64_output py_repr (PStr encoded) = Returns text).
  { destruct (b64_of_text_utf8 text Htext) as (b & _ & Hb & Hdec & Henc').
    rewrite Henc in Henc'. injection Henc' as ->.
    apply decode_base64_output_b64; [exact Hb | apply Hdec]. }
  assert (Hfind : find_or field result PNone = PStr encoded)
    by (unfold find_or; rewrite Hlook; reflexivity).
  eexists. split; [rewrite Hrun; reflexivity |].
  unfold text_fields in Hfield. cbn [In] in Hfield.
  destruct Hfield as [<- | [<- | [<- | []]]]; rewrite Hfind, Hback in *.
  - injection Hout as <-. reflexivity.
  - injection Herr as <-. reflexivity.
  - injection Hcomp as <-. reflexivity.
Qed.

(** X18: [get_status] answers 404 exactly when the token is not empty and
    the engine answered the poll with status 404. *)
Theorem get_status_not_found_iff token w :
  (exists body, fst (get_status py_repr remote token w) = Returns (body, 404))
  <-> (token <> []
       /\ exists r, remote (status_call token) = inr r
                    /\ status_code r = 404).
Proof.
  split.
  - intros [body Hrun].
    destruct (get_status_case token w) as [| | r Ht Hr H404 | | | |];
      cbn [fst] in Hrun; try discriminate Hrun.
    split; [exact Ht | exists r; auto].
  - intros (Ht & r & Hr & H404). eexists.
    rewrite (get_status_http_error token w r Ht Hr
               (http_error_status_404 r H404)).
    rewrite H404. reflexivity.
Qed.

(** X19: [get_status] answers [{status: {description: "Pending"}}] only
    when the engine answered the poll with a success status and a JSON
    object whose status [id] equals 1 or 2. *)
Theorem get_status_pending_only_if token w code :
  fst (get_status py_repr remote token w)
  = Returns (PDict [(py "status",
                     PDict [(py "description", PStr (py "Pending"))])],
             code) ->
  code = 200
  /\ exists r result status,
       remote (status_call token) = inr r
       /\ http_error_status r = false
       /\ json_body r = Some (PDict result)
       /\ find_or (py "status") result (PDict []) = PDict status
       /\ py_in (find_or (py "id") status PNone) [1; 2] = true.
Proof.
  intros Hrun.
  destruct (get_status_case token w)
    as [| | | | | r result status | r result status];
    cbn [fst] in Hrun; try discriminate Hrun.
  injection Hrun as <-. split; [reflexivity |].
  exists r, result, status. auto 6.
Qed.

(** ** More of [decode_base64_output] *)

(** X20: on a string that base64 can decode, [decode_base64_output]
    returns well-formed text: code points in range, no surrogate, whatever
    the decoded octets are; so the text can be encoded again. *)
Theorem decode_base64_output_well_formed s b :
  b64decode (PStr s) = Returns b ->
  exists text,
    decode_base64_output py_repr (PStr s) = Returns text
    /\ utf8_text text
    /\ exists octets, Utf8.encode text = Some octets.
Proof.
  intros Hb.
  assert (Hbytes : Forall is_byte b).
  { unfold b64decode in Hb. destruct (forallb _ s); [| discriminate].
    destruct (Base64.a2b_base64 s) as [b' |] eqn:Ha; [| discriminate].
    injection Hb as <-. exact (a2b_loop_bytes s 0 0 0 b' Ha). }
  destruct (utf8_decode_ignore_total b) as [text Htext].
  assert (Hwf : utf8_text text)
    by exact (utf8_decode_ignore_text (List.length b) b text
                (Nat.le_refl _) Hbytes Htext).
  exists text. split; [| split; [exact Hwf |]].
  - unfold decode_base64_output. rewrite Hb. cbn [obind].
    unfold bytes_decode. rewrite Htext. reflexivity.
  - destruct (utf8_encode_decode text Hwf) as (octets & Henc & _).
    exists octets. exact Henc.
Qed.

(** X21: line breaks, blanks and any other character outside the base64
    alphabet and the padding do not count: two ASCII strings that agree
    on the other characters decode alike. *)
Theorem decode_base64_output_skips s s' b :
  Forall is_ascii s -> Forall is_ascii s' ->
  filter significant s = filter significant s' ->
  b64decode (PStr s) = Returns b ->
  b64decode (PStr s') = Returns b
  /\ decode_base64_output py_repr (PStr s')
     = decode_base64_output py_repr (PStr s).
Proof.
  intros Hs Hs' Hsame Hb.
  assert (Hb' : b64decode (PStr s') = Returns b).
  { unfold b64decode in *.
    rewrite (is_ascii_forallb s Hs) in Hb. rewrite (is_ascii_forallb s' Hs').
    unfold Base64.a2b_base64 in *.
    rewrite <- (a2b_loop_skips s'), <- Hsame, a2b_loop_skips. exact Hb. }
  split; [exact Hb' |].
  unfold decode_base64_output. rewrite Hb, Hb'. cbn [obind].
  unfold bytes_decode.
  destruct (utf8_decode_ignore_total b) as [text Htext]. rewrite Htext.
  reflexivity.
Qed.

(** ** Log records, defaults and the encoded text *)

(** X22: [submit_code] logs nothing when it answers 400, one information
    record when it answers 202, and one error record, no more, when it
    answers 500 or 502. *)
Theorem submit_code_logs request w :
  exists body code,
    fst (submit_code py_repr remote request w) = Returns (body, code)
    /\ ((code = 400
         /\ logged (snd (submit_code py_repr remote request w)) = logged w)
        \/ (code = 202
            /\ exists msg,
                 logged (snd (submit_code py_repr remote request w))
                 = logged w ++ [LogInfo msg])
        \/ ((code = 500 \/ code = 502)
            /\ exists l,
                 logged (snd (submit_code py_repr remote request w))
                 = logged w ++ [l]
                 /\ forall msg, l <> LogInfo msg)).
Proof.
  destruct (submit_code_case request w);
    eexists; eexists; (split; [reflexivity |]);
    first [ left; split; reflexivity
          | right; left; split; [reflexivity | eexists; reflexivity]
          | right; right; split;
            [ auto
            | eexists; split; [reflexivity | intros msg; discriminate] ] ].
Qed.

(** X23: [get_status] logs nothing when it answers 200, 400 or 404, and
    one error record, no more, when it answers 500 or 502. *)
Theorem get_status_logs token w :
  exists body code,
    fst (get_status py_repr remote token w) = Returns (body, code)
    /\ ((In code [200; 400; 404]
         /\ logged (snd (get_status py_repr remote token w)) = logged w)
        \/ (In code [500; 502]
            /\ exists l,
                 logged (snd (get_status py_repr remote token w))
                 = logged w ++ [l]
                 /\ forall msg, l <> LogInfo msg)).
Proof.
  destruct (get_status_case token w);
    eexists; eexists; (split; [reflexivity |]);
    first [ left; split; [cbn; auto | reflexivity]
          | right; split;
            [ cbn; auto
            | eexists; split; [reflexivity | intros msg; discriminate] ] ].
Qed.

Lemma b64encode_length s :
  exists k, List.length (Base64.b64encode s) = (4 * k)%nat.
Proof.
  induction s as [| b0 | b0 b1 | b0 b1 b2 rest [k IH]] using list_ind3.
  - exists 0%nat. reflexivity.
  - exists 1%nat. reflexivity.
  - exists 1%nat. reflexivity.
  - exists (S k). cbn [Base64.b64encode List.length]. rewrite IH. lia.
Qed.

(** X24: the base64 form [submit_code] gives to [code] and [stdin] is
    ASCII, and its length is a multiple of four. *)
Theorem b64_of_text_shape v encoded :
  b64_of_text v = Returns encoded ->
  Forall is_ascii encoded
  /\ exists k, List.length encoded = (4 * k)%nat.
Proof.
  unfold b64_of_text, py_encode. intros H.
  destruct v; try discriminate H.
  destruct (Utf8.encode s) as [b |]; [| discriminate H].
  cbn [obind] in H. unfold bytes_decode in H.
  rewrite utf8_decode_ascii in H by apply b64encode_ascii.
  injection H as <-. split; [apply b64encode_ascii | apply b64encode_length].
Qed.

(** X25: a request that names a language of the table and has neither
    [code] nor [stdin] is forwarded all the same, with an empty
    [source_code] and an empty [stdin]. *)
Theorem submit_code_defaults request data name id w :
  get_json request = Returns (PDict data) ->
  lookup (py "language") data = Some (PStr name) ->
  In (name, id) LANGUAGE_MAP ->
  lookup (py "code") data = None ->
  lookup (py "stdin") data = None ->
  outbound (snd (submit_code py_repr remote request w))
  = outbound w ++ [submission_call (py "") id (py "")].
Proof.
  intros Hjson Hlang Hin Hcode Hstdin.
  assert (Hreads : reads request (PStr (py "")) (PStr name) (PStr (py ""))).
  { exists data. split; [exact Hjson |]. split.
    - intros ->. discriminate Hlang.
    - unfold find_or. rewrite Hcode, Hlang, Hstdin. auto. }
  rewrite (submit_code_forwarded py_repr remote request _ _ _ _
             (py "") (py "") w Hreads Hin eq_refl eq_refl).
  cbv zeta. destruct (remote _) as [t | r]; [reflexivity |].
  destruct (http_error_status r); [reflexivity |].
  destruct (json_body r) as [[| | | | | |] |]; reflexivity.
Qed.

(** X26: [submit_code] sends a call exactly when the body is a non-empty
    JSON object whose language is a name of the table and whose code and
    input, defaults included, can be encoded. *)
Theorem submit_code_sends_iff request w :
  outbound (snd (submit_code py_repr remote request w)) <> outbound w
  <-> exists code name stdin id ec es,
        reads request code (PStr name) stdin
        /\ In (name, id) LANGUAGE_MAP
        /\ b64_of_text code = Returns ec
        /\ b64_of_text stdin = Returns es.
Proof.
  split.
  - intros Hsent.
    destruct (submit_code_case request w);
      try (exfalso; apply Hsent; reflexivity);
      exists code, name, stdin, id, ec, es; auto.
  - intros (code & name & stdin & id & ec & es & Hreads & Hin & Hec & Hes).
    rewrite (submit_code_forwarded py_repr remote request _ _ _ _ _ _ w
               Hreads Hin Hec Hes).
    cbv zeta.
    assert (Hgrow : forall (l : list outbound_call) c, l ++ [c] <> l).
    { intros l c H. apply (f_equal (@List.length _)) in H.
      rewrite length_app in H. cbn in H. lia. }
    destruct (remote _) as [t | r]; [apply Hgrow |].
    destruct (http_error_status r); [apply Hgrow |].
    destruct (json_body r) as [[| | | | | |] |]; apply Hgrow.
Qed.

End Coverage.

(** ** The paths on sample runs *)

Lemma is_ascii_check s :
  forallb (fun c => (0 <=? c) && (c <? 128)) s = true -> Forall is_ascii s.
Proof.
  intros H. apply Forall_forall. intros c Hc.
  rewrite forallb_forall in H. specialize (H c Hc).
  apply andb_true_iff in H. destruct H as [Hlo Hhi].
  apply Z.leb_le in Hlo. apply Z.ltb_lt in Hhi. unfold is_ascii. lia.
Qed.

Lemma scenario_reads :
  reads scenario_request (PStr (py "print(1)")) (PStr (py "Python 3"))
    (PStr (py "")).
Proof.
  exists [ (py "code", PStr (py "print(1)"));
           (py "language", PStr (py "Python 3"));
           (py "stdin", PStr (py "")) ].
  split; [reflexivity |]. split; [discriminate |]. repeat split; reflexivity.
Qed.

Lemma python3_listed : In (py "Python 3", PInt 71) LANGUAGE_MAP.
Proof. left. reflexivity. Qed.

Lemma submit_code_forwards_faithfully_run :
  exists ec es,
    outbound (snd (submit_code plain_repr (engine_answers accepted)
                     scenario_request initial))
    = outbound initial ++ [submission_call ec (PInt 71) es]
    /\ decode_base64_output plain_repr (PStr ec) = Returns (py "print(1)")
    /\ decode_base64_output plain_repr (PStr es) = Returns (py "").
Proof.
  apply (submit_code_forwards_faithfully plain_repr (engine_answers accepted)
           scenario_request (py "print(1)") (py "Python 3") (py "")
           (PInt 71) initial scenario_reads python3_listed);
    apply utf8_text_check; reflexivity.
Defined.

Lemma submit_code_falsy_body_run :
  submit_code plain_repr engine_unreachable empty_array_request initial
  = (Returns (error_body (py "Invalid JSON payload"), 400), initial).
Proof.
  apply (submit_code_falsy_body plain_repr engine_unreachable
           empty_array_request (PList []) initial); reflexivity.
Defined.

Lemma submit_code_unreadable_body_run :
  submit_code plain_repr engine_unreachable malformed_request initial
  = (Returns (error_body (py "An unexpected server error occurred."), 500),
     record_log (LogException (py "Internal Server Error: ") BadRequest)
       initial).
Proof.
  apply (submit_code_unreadable_body plain_repr engine_unreachable
           malformed_request BadRequest initial);
    [reflexivity | left; reflexivity].
Defined.

Lemma submit_code_body_not_object_run :
  submit_code plain_repr engine_unreachable array_request initial
  = (Returns (error_body (py "An unexpected server error occurred."), 500),
     record_log (LogException (py "Internal Server Error: ") AttributeError)
       initial).
Proof.
  apply (submit_code_body_not_object plain_repr engine_unreachable
           array_request (PList [PStr (py "print(1)")]) initial);
    reflexivity.
Defined.

Lemma submit_code_text_required_run :
  fst (submit_code plain_repr (engine_answers accepted) numeric_code_request
         initial)
  = Returns (error_body (py "An unexpected server error occurred."), 500)
  /\ outbound (snd (submit_code plain_repr (engine_answers accepted)
                      numeric_code_request initial))
     = outbound initial.
Proof.
  apply (submit_code_text_required plain_repr (engine_answers accepted)
           numeric_code_request (PInt 42) (py "Python 3") (PStr (py ""))
           (PInt 71) initial).
  - exists [ (py "code", PInt 42); (py "language", PStr (py "Python 3")) ].
    split; [reflexivity |]. split; [discriminate |].
    repeat split; reflexivity.
  - exact python3_listed.
  - left. intros s Hs. discriminate Hs.
Defined.

Lemma submit_code_accepted_run :
  submit_code plain_repr (engine_answers accepted_without_token)
    scenario_request initial
  = (Returns (PDict [(py "token", PNone)], 202),
     record_log (LogInfo (py "Submission successful. Token: None"))
       (record_call scenario_call initial)).
Proof.
  apply (submit_code_accepted plain_repr
           (engine_answers accepted_without_token) scenario_request
           (PStr (py "print(1)")) (py "Python 3") (PStr (py "")) (PInt 71)
           (py "cHJpbnQoMSk=") (py "") accepted_without_token [] initial
           scenario_reads python3_listed);
    reflexivity.
Defined.

Lemma submit_code_unusable_answer_run :
  submit_code plain_repr (engine_answers html_page) scenario_request initial
  = (Returns (error_body (py "An unexpected server error occurred."), 500),
     record_log (LogException (py "Internal Server Error: ") JSONDecodeError)
       (record_call scenario_call initial)).
Proof.
  apply (submit_code_unusable_answer plain_repr (engine_answers html_page)
           scenario_request (PStr (py "print(1)")) (py "Python 3")
           (PStr (py "")) (PInt 71) (py "cHJpbnQoMSk=") (py "") html_page
           JSONDecodeError initial scenario_reads python3_listed);
    try reflexivity.
  left. split; reflexivity.
Defined.

Lemma submit_code_status_meaning_run :
  exists call r answer,
    outbound (snd (submit_code plain_repr (engine_answers accepted)
                     scenario_request initial))
    = outbound initial ++ [call]
    /\ engine_answers accepted call = inr r
    /\ http_error_status r = false
    /\ json_body r = Some (PDict answer)
    /\ PDict [(py "token", PStr (py "d85cd024"))]
       = PDict [(py "token", find_or (py "token") answer PNone)].
Proof.
  refine (proj1 (submit_code_status_meaning plain_repr
                   (engine_answers accepted) scenario_request initial _
                   (PDict [(py "token", PStr (py "d85cd024"))]) 202
                   eq_refl) _).
  - intros e H. discriminate H.
  - reflexivity.
Defined.

Lemma get_status_sends_once_run :
  outbound (snd (get_status plain_repr engine_unreachable (py "d85cd024")
                   initial))
  = outbound initial
    ++ [ {| call_method := GET;
            call_url :=
              py "https://ce.judge0.com/submissions/" ++ py "d85cd024"
              ++ py "?base64_encoded=true&fields=stdout,stderr,compile_output,time,memory,status";
            call_json := None;
            call_headers := [] |} ].
Proof.
  apply (get_status_sends_once plain_repr engine_unreachable (py "d85cd024")
           initial).
  discriminate.
Defined.

Lemma get_status_remote_error_run :
  get_status plain_repr (engine_answers overloaded) (py "d85cd024") initial
  = (Returns (error_body_details
                (py "Failed to retrieve results from compiler service.")
                (py "queue is full"), 502),
     record_log (LogError (py "Judge0 Polling Error: queue is full"))
       (record_call (status_call (py "d85cd024")) initial)).
Proof.
  apply (get_status_remote_error plain_repr (engine_answers overloaded)
           (py "d85cd024") initial overloaded);
    [discriminate | reflexivity | reflexivity | discriminate].
Defined.

Lemma get_status_transport_failure_run :
  get_status plain_repr engine_unreachable (py "d85cd024") initial
  = (Returns (error_body
                (py "An unexpected server error occurred during polling."),
              500),
     record_log
       (LogException (py "Internal Polling Error: ")
          (Transport ConnectionError))
       (record_call (status_call (py "d85cd024")) initial)).
Proof.
  apply (get_status_transport_failure plain_repr engine_unreachable
           (py "d85cd024") initial ConnectionError);
    [discriminate | reflexivity].
Defined.

Lemma get_status_unusable_answer_run :
  get_status plain_repr (engine_answers (answer 200 (PList [])))
    (py "d85cd024") initial
  = (Returns (error_body
                (py "An unexpected server error occurred during polling."),
              500),
     record_log (LogException (py "Internal Polling Error: ") AttributeError)
       (record_call (status_call (py "d85cd024")) initial)).
Proof.
  apply (get_status_unusable_answer plain_repr
           (engine_answers (answer 200 (PList []))) (py "d85cd024") initial
           (answer 200 (PList [])) AttributeError);
    [discriminate | reflexivity | reflexivity |].
  left. right. exists (PList []). repeat split; reflexivity.
Defined.

Lemma get_status_finished_fields_run :
  exists final,
    fst (get_status plain_repr (engine_answers finished) (py "d85cd024")
           initial)
    = Returns (PDict final, 200)
    /\ Permutation (map fst final)
         [py "status"; py "stdout"; py "stderr"; py "compile_output";
          py "time"; py "memory"]
    /\ lookup (py "status") final = Some (PStr (py "Accepted"))
    /\ lookup (py "time") final = Some (PStr (py "0.002"))
    /\ lookup (py "memory") final = Some (PInt 3264).
Proof.
  apply (get_status_finished_fields plain_repr (engine_answers finished)
           (py "d85cd024") initial finished finished_result
           [(py "id", PInt 3); (py "description", PStr (py "Accepted"))]);
    try reflexivity.
  discriminate.
Defined.

Lemma get_status_returns_encoded_text_run :
  exists final,
    fst (get_status plain_repr (engine_answers printed) (py "d85cd024")
           initial)
    = Returns (PDict final, 200)
    /\ lookup (py "stdout") final = Some (PStr [104; 105; 10]).
Proof.
  apply (get_status_returns_encoded_text plain_repr (engine_answers printed)
           (py "d85cd024") initial printed printed_result
           [(py "id", PInt 3); (py "description", PStr (py "Accepted"))]
           (py "stdout") [104; 105; 10] (py "aGkK"));
    try reflexivity.
  - discriminate.
  - left. reflexivity.
  - apply utf8_text_check. reflexivity.
Defined.

Lemma get_status_pending_only_if_run :
  200 = 200
  /\ exists r result status,
       engine_answers in_queue (status_call (py "d85cd024")) = inr r
       /\ http_error_status r = false
       /\ json_body r = Some (PDict result)
       /\ find_or (py "status") result (PDict []) = PDict status
       /\ py_in (find_or (py "id") status PNone) [1; 2] = true.
Proof.
  apply (get_status_pending_only_if plain_repr (engine_answers in_queue)
           (py "d85cd024") initial 200).
  reflexivity.
Defined.

(** Base64 of the octets [E2 9C 93 FF]: a check mark, then an octet that
    is not UTF-8 and is dropped. *)
Lemma decode_base64_output_well_formed_run :
  exists text,
    decode_base64_output plain_repr (PStr (py "4pyT/w==")) = Returns text
    /\ utf8_text text
    /\ exists octets, Utf8.encode text = Some octets.
Proof.
  apply (decode_base64_output_well_formed plain_repr (py "4pyT/w==")
           [0xE2; 0x9C; 0x93; 0xFF]).
  reflexivity.
Defined.

Lemma decode_base64_output_skips_run :
  b64decode (PStr (py "aG" ++ [10] ++ py "kK" ++ [10]))
  = Returns [104; 105; 10]
  /\ decode_base64_output plain_repr (PStr (py "aG" ++ [10] ++ py "kK" ++ [10]))
     = decode_base64_output plain_repr (PStr (py "aGkK")).
Proof.
  apply (decode_base64_output_skips plain_repr (py "aGkK")
           (py "aG" ++ [10] ++ py "kK" ++ [10]) [104; 105; 10]);
    try (apply is_ascii_check); reflexivity.
Defined.

Lemma b64_of_text_shape_run :
  Forall is_ascii (py "cHJpbnQoMSk=")
  /\ exists k, List.length (py "cHJpbnQoMSk=") = (4 * k)%nat.
Proof.
  apply (b64_of_text_shape (PStr (py "print(1)")) (py "cHJpbnQoMSk=")).
  reflexivity.
Defined.

Lemma submit_code_defaults_run :
  outbound (snd (submit_code plain_repr engine_unreachable
                   language_only_request initial))
  = outbound initial ++ [submission_call (py "") (PInt 50) (py "")].
Proof.
  apply (submit_code_defaults plain_repr engine_unreachable
           language_only_request [(py "language", PStr (py "C"))] (py "C")
           (PInt 50) initial);
    try reflexivity.
  right. right. right. left. reflexivity.
Defined.
